(** * SciSciNet agent: tool registry, tool execution, conversation loop and
      Vega-Lite extraction

    A shallow embedding of [project2-backend/agent.py], of the queries of
    [project2-backend/tools.py] and of the handlers of
    [project2-backend/app.py] that use them, with the properties of the
    system description proved (or refuted) on it, and further properties
    that the code shows.

    Conventions of the embedding:
    - a Python [str] is the Rocq [string] of its UTF-8 bytes; substring
      search, [startswith] and [replace] on the bytes are the ones on the
      characters, and the white space of Python is recognised through its
      encodings;
    - a Python value that crosses the JSON boundary (tool arguments, tool
      results, parsed chart specifications) is a [json] tree;
    - a Python call that may raise is a function into [outcome], whose
      [Raised] carries the exception;
    - the reasoning service, [json.loads], [json.dumps], the data frame of
      papers and the pandas sort are external to the repository: the
      functions that use them take them as section variables, and a
      concrete JSON reader is given to run the extraction on examples;
      so are [str.title], [int] on a string, the mean of a column and the
      floats it yields;
    - an integer column of a data frame holds [int64] values: its rows are
      integers, and a sum over it wraps around. *)

From Stdlib Require Import ZArith Lia Ascii String List Bool Sorted.
From stdpp Require Import base option list strings gmap.

Local Open Scope list_scope.

(* ================================================================== *)
(** * Part I: the embedding *)
(* ================================================================== *)

(* ------------------------------------------------------------------ *)
(** ** Python string operations used by the source *)
(* ------------------------------------------------------------------ *)

Module PyStr.

(** [s.startswith(pre)], also the anchored literal match of [re]. *)
Fixpoint startswith (pre s : string) : bool :=
  match pre, s with
  | EmptyString, _ => true
  | String a pre', String b s' => Ascii.eqb a b && startswith pre' s'
  | String _ _, EmptyString => false
  end.

(** [sub in s] on two strings: [sub] occurs somewhere in [s]. *)
Fixpoint contains (sub s : string) : bool :=
  startswith sub s ||
  match s with
  | EmptyString => false
  | String _ s' => contains sub s'
  end.

(** Suffix of [s] from position [n] on: [s[n:]]. *)
Fixpoint drop (n : nat) (s : string) : string :=
  match n, s with
  | O, _ => s
  | S _, EmptyString => EmptyString
  | S k, String _ s' => drop k s'
  end.

(** The scan of [str.replace] for a non-empty [old]: left to right, at
    each position where [old] starts the replacement [new] is emitted and
    the scan resumes after the occurrence (occurrences do not overlap).
    [skip] counts the characters of a matched occurrence still to be
    passed over. *)
Fixpoint replace_from (old new : string) (skip : nat) (s : string) : string :=
  match s with
  | EmptyString => EmptyString
  | String c s' =>
      match skip with
      | S k => replace_from old new k s'
      | O =>
          if startswith old s
          then new +:+ replace_from old new (String.length old - 1) s'
          else String c (replace_from old new 0 s')
      end
  end.

(** With an empty [old], Python inserts [new] before every character
    and at the end. *)
Fixpoint interleave (new s : string) : string :=
  match s with
  | EmptyString => new
  | String c s' => new +:+ String c (interleave new s')
  end.

(** [s.replace(old, new)]. *)
Definition replace (old new s : string) : string :=
  match old with
  | EmptyString => interleave new s
  | String _ _ => replace_from old new 0 s
  end.

(** The string of the given bytes. *)
Definition bytes (l : list nat) : string :=
  string_of_list_ascii (map ascii_of_nat l).

(** The white space of Python ([str.isspace], which is also the class
    [\s] of [re] on a [str] pattern), each character by its UTF-8
    encoding: U+0009..U+000D, U+001C..U+001F, U+0020, U+0085, U+00A0,
    U+1680, U+2000..U+200A, U+2028, U+2029, U+202F, U+205F, U+3000. *)
Definition whitespace : list string :=
  map (fun n => bytes [n]) [9; 10; 11; 12; 13; 28; 29; 30; 31; 32]%nat ++
  [bytes [194; 133]; bytes [194; 160]; bytes [225; 154; 128]]%nat ++
  map (fun n => bytes [226; 128; n]) (seq 128 11) ++
  [bytes [226; 128; 168]; bytes [226; 128; 169]; bytes [226; 128; 175];
   bytes [226; 129; 159]; bytes [227; 128; 128]]%nat.

(** Number of bytes of the first of [toks] that starts [s], [0] if none
    does. *)
Fixpoint token_length (toks : list string) (s : string) : nat :=
  match toks with
  | [] => 0
  | tok :: toks' =>
      if startswith tok s then String.length tok else token_length toks' s
  end.

(** Removes the leading characters that are among [toks]; [skip] counts
    the bytes of a recognised character still to be passed over. *)
Fixpoint lstrip_from (toks : list string) (skip : nat) (s : string) : string :=
  match s with
  | EmptyString => EmptyString
  | String _ s' =>
      match skip with
      | S k => lstrip_from toks k s'
      | O =>
          match token_length toks s with
          | O => s
          | S k => lstrip_from toks k s'
          end
      end
  end.

(** [s.lstrip()], [s.rstrip()] and [s.strip()]. *)
Definition lstrip (s : string) : string := lstrip_from whitespace 0 s.

Definition rstrip (s : string) : string :=
  String.rev (lstrip_from (map String.rev whitespace) 0 (String.rev s)).

Definition strip (s : string) : string := rstrip (lstrip s).

(** Splits [s] at the first occurrence of [sep]: the text before it and
    the text after it. *)
Fixpoint split_first (sep s : string) : option (string * string) :=
  if startswith sep s then Some (EmptyString, drop (String.length sep) s)
  else
    match s with
    | EmptyString => None
    | String c s' =>
        match split_first sep s' with
        | Some (before, after) => Some (String c before, after)
        | None => None
        end
    end.

End PyStr.

(* ------------------------------------------------------------------ *)
(** ** Exceptions and calls that may raise *)
(* ------------------------------------------------------------------ *)

(** An exception (an instance of [Exception]): its class and [str(e)]. *)
Record exn := Exn { exn_class : string; exn_str : string }.

Inductive outcome (A : Type) : Type :=
| Returned (a : A)
| Raised (e : exn).

Arguments Returned {A} a.
Arguments Raised {A} e.

#[global] Instance outcome_ret : MRet outcome := fun A a => Returned a.

#[global] Instance outcome_bind : MBind outcome := fun A B k m =>
  match m with
  | Returned a => k a
  | Raised e => Raised e
  end.

(** [try: body / except Exception as e: handler(e)] *)
Definition try_except {A : Type} (body : outcome A)
    (handler : exn -> outcome A) : outcome A :=
  match body with
  | Returned a => Returned a
  | Raised e => handler e
  end.

(** [try: body / except cls: handler]: only exceptions of class [cls] are
    handled, the others propagate. (The one class the source names,
    [json.JSONDecodeError], has no subclass.) *)
Definition try_except_class {A : Type} (cls : string) (body : outcome A)
    (handler : outcome A) : outcome A :=
  match body with
  | Returned a => Returned a
  | Raised e => if String.eqb (exn_class e) cls then handler else Raised e
  end.

Definition is_raised {A : Type} (m : outcome A) : bool :=
  match m with
  | Returned _ => false
  | Raised _ => true
  end.

(* ------------------------------------------------------------------ *)
(** ** JSON values as Python sees them *)
(* ------------------------------------------------------------------ *)

(** What [json.loads] builds and [json.dumps] accepts: [None], [bool],
    [int], [float], [str], [list] and [dict] with string keys. A float
    is kept as its literal; the source never looks inside one. A dict is
    the list of its items in insertion order, with distinct keys. *)
#[local] Set Warnings "-register-all".

Inductive json : Type :=
| JNull
| JBool (b : bool)
| JInt (n : Z)
| JFloat (literal : string)
| JStr (s : string)
| JArr (items : list json)
| JObj (items : list (string * json)).

#[local] Set Warnings "register-all".

(** [type(v).__name__] *)
Definition type_name (v : json) : string :=
  match v with
  | JNull => "NoneType"
  | JBool _ => "bool"
  | JInt _ => "int"
  | JFloat _ => "float"
  | JStr _ => "str"
  | JArr _ => "list"
  | JObj _ => "dict"
  end.

(** [d[k] = v] on a dict: the value of an existing key is replaced in
    place, a new key goes to the end. *)
Fixpoint dict_set {V : Type} (k : string) (v : V) (d : list (string * V))
  : list (string * V) :=
  match d with
  | [] => [(k, v)]
  | (k', v') :: d' =>
      if String.eqb k' k then (k', v) :: d' else (k', v') :: dict_set k v d'
  end.

(** [d.get(k)] on the items of a dict. *)
Fixpoint dict_get {V : Type} (k : string) (d : list (string * V)) : option V :=
  match d with
  | [] => None
  | (k', v') :: d' => if String.eqb k' k then Some v' else dict_get k d'
  end.

(** [k in d] on the items of a dict. *)
Definition dict_has {V : Type} (k : string) (d : list (string * V)) : bool :=
  match dict_get k d with
  | Some _ => true
  | None => false
  end.

(** [x == v] for a string [x]: only an equal string is equal to it. *)
Definition str_equals (x : string) (v : json) : bool :=
  match v with
  | JStr s => String.eqb x s
  | _ => false
  end.

(** [x in v] for a string [x]: key membership on a dict, element
    membership on a list, substring test on a string, [TypeError] on the
    values that are no containers. *)
Definition py_in (x : string) (v : json) : outcome bool :=
  match v with
  | JObj items => Returned (dict_has x items)
  | JArr items => Returned (existsb (str_equals x) items)
  | JStr s => Returned (PyStr.contains x s)
  | _ =>
      Raised (Exn "TypeError"
                ("argument of type '" +:+ type_name v +:+ "' is not iterable"))
  end.

(** [v.get(k, default)]: defined on a dict, [AttributeError] elsewhere. *)
Definition py_get (v : json) (k : string) (default : json) : outcome json :=
  match v with
  | JObj items =>
      Returned (match dict_get k items with Some x => x | None => default end)
  | _ =>
      Raised (Exn "AttributeError"
                ("'" +:+ type_name v +:+ "' object has no attribute 'get'"))
  end.

(* ------------------------------------------------------------------ *)
(** ** A reader for JSON documents *)
(* ------------------------------------------------------------------ *)

(** [json.loads] belongs to the Python library. The functions of the
    agent take it as a parameter; this module gives a reader with the
    grammar of the library (RFC 8259 plus [NaN], [Infinity] and
    [-Infinity], strict strings, the last of two equal keys wins) so that
    the extraction can be run on concrete answers. The text of the error
    message, which the agent discards, is not reproduced, and the
    interpreter's limits (recursion depth, digits of an integer) are left
    out. *)
Module Json.

Definition decode_error : exn := Exn "JSONDecodeError" "Expecting value".

Inductive token : Type :=
| TLBrace | TRBrace | TLBracket | TRBracket | TColon | TComma
| TStr (s : string)
| TScalar (v : json).

Definition is_digit (c : ascii) : bool :=
  let n := nat_of_ascii c in (48 <=? n)%nat && (n <=? 57)%nat.

Definition hex_value (c : ascii) : option N :=
  let n := N_of_ascii c in
  if (48 <=? n)%N && (n <=? 57)%N then Some (n - 48)%N
  else if (65 <=? n)%N && (n <=? 70)%N then Some (n - 55)%N
  else if (97 <=? n)%N && (n <=? 102)%N then Some (n - 87)%N
  else None.

Definition hex4 (a b c d : ascii) : option N :=
  match hex_value a, hex_value b, hex_value c, hex_value d with
  | Some x, Some y, Some z, Some w => Some (((x * 16 + y) * 16 + z) * 16 + w)%N
  | _, _, _, _ => None
  end.

Definition nbytes (l : list N) : string :=
  string_of_list_ascii (map ascii_of_N l).

(** UTF-8 encoding of a code point (a lone surrogate is encoded like any
    other three-byte code point). *)
Definition utf8 (cp : N) : string :=
  if (cp <? 128)%N then nbytes [cp]
  else if (cp <? 2048)%N then
    nbytes [192 + cp / 64; 128 + cp mod 64]%N
  else if (cp <? 65536)%N then
    nbytes [224 + cp / 4096; 128 + (cp / 64) mod 64; 128 + cp mod 64]%N
  else
    nbytes [240 + cp / 262144; 128 + (cp / 4096) mod 64;
            128 + (cp / 64) mod 64; 128 + cp mod 64]%N.

(** The pieces of a string literal: a byte of the text or the 16-bit unit
    of a [\uXXXX] escape. *)
Inductive piece : Type :=
| PByte (c : ascii)
| PUnit (n : N).

Definition simple_escape (c : ascii) : option ascii :=
  match c with
  | "034"%char => Some "034"%char
  | "\"%char => Some "\"%char
  | "/"%char => Some "/"%char
  | "b"%char => Some "008"%char
  | "f"%char => Some "012"%char
  | "n"%char => Some "010"%char
  | "r"%char => Some "013"%char
  | "t"%char => Some "009"%char
  | _ => None
  end.

(** The text after an opening quote: the pieces up to the closing quote
    and the text after it. A control character, an unknown escape or a
    missing closing quote is an error. *)
Fixpoint scan_pieces (s : string) : option (list piece * string) :=
  match s with
  | EmptyString => None
  | String "034"%char rest => Some ([], rest)
  | String "\"%char (String "u"%char (String a (String b (String c (String d rest))))) =>
      match hex4 a b c d, scan_pieces rest with
      | Some n, Some (ps, rest') => Some (PUnit n :: ps, rest')
      | _, _ => None
      end
  | String "\"%char (String e rest) =>
      match simple_escape e, scan_pieces rest with
      | Some c, Some (ps, rest') => Some (PByte c :: ps, rest')
      | _, _ => None
      end
  | String "\"%char EmptyString => None
  | String c rest =>
      if (nat_of_ascii c <? 32)%nat then None
      else
        match scan_pieces rest with
        | Some (ps, rest') => Some (PByte c :: ps, rest')
        | None => None
        end
  end.

(** A high surrogate followed by a low one is one code point. *)
Fixpoint decode_pieces (ps : list piece) : string :=
  match ps with
  | [] => EmptyString
  | PByte c :: ps' => String c (decode_pieces ps')
  | PUnit hi :: ps' =>
      match ps' with
      | PUnit lo :: ps'' =>
          if (55296 <=? hi)%N && (hi <=? 56319)%N &&
             (56320 <=? lo)%N && (lo <=? 57343)%N
          then utf8 (65536 + (hi - 55296) * 1024 + (lo - 56320))%N
                 +:+ decode_pieces ps''
          else utf8 hi +:+ decode_pieces ps'
      | _ => utf8 hi +:+ decode_pieces ps'
      end
  end.

Definition scan_string (s : string) : option (string * string) :=
  match scan_pieces s with
  | Some (ps, rest) => Some (decode_pieces ps, rest)
  | None => None
  end.

(** The longest run of digits that starts [s], and the text after it. *)
Fixpoint span_digits (s : string) : string * string :=
  match s with
  | String c rest =>
      if is_digit c
      then let '(ds, rest') := span_digits rest in (String c ds, rest')
      else (EmptyString, s)
  | EmptyString => (EmptyString, EmptyString)
  end.

Definition digits_value (ds : string) : Z :=
  fold_left (fun acc c => (acc * 10 + Z.of_nat (nat_of_ascii c - 48))%Z)
    (list_ascii_of_string ds) 0%Z.

(** The number that starts [s], as the library reads it: an optional
    minus sign, then [0] or a run of digits that does not start with [0],
    then optionally a point and digits, then optionally [e] or [E], a
    sign and digits. Without fraction and exponent it is an integer,
    otherwise a float. Returns the number of bytes read. *)
Definition scan_number (s : string) : option (json * nat) :=
  let '(neg, s1) :=
    match s with
    | String "-"%char r => (true, r)
    | _ => (false, s)
    end in
  let '(int_digits, s2) :=
    match s1 with
    | String "0"%char r => ("0", r)
    | _ => span_digits s1
    end in
  match int_digits with
  | EmptyString => None
  | _ =>
      let '(frac, s3) :=
        match s2 with
        | String "."%char r =>
            match span_digits r with
            | (EmptyString, _) => (EmptyString, s2)
            | (ds, r') => (String "."%char ds, r')
            end
        | _ => (EmptyString, s2)
        end in
      let '(expo, s4) :=
        match s3 with
        | String e r =>
            if Ascii.eqb e "e"%char || Ascii.eqb e "E"%char then
              let '(sign, r1) :=
                match r with
                | String "+"%char r' => ("+", r')
                | String "-"%char r' => ("-", r')
                | _ => (EmptyString, r)
                end in
              match span_digits r1 with
              | (EmptyString, _) => (EmptyString, s3)
              | (ds, r') => (String e (sign +:+ ds), r')
              end
            else (EmptyString, s3)
        | EmptyString => (EmptyString, s3)
        end in
      let read := (String.length s - String.length s4)%nat in
      match frac, expo with
      | EmptyString, EmptyString =>
          let n := digits_value int_digits in
          Some (JInt (if neg then (- n)%Z else n), read)
      | _, _ =>
          Some (JFloat ((if neg then "-" else EmptyString)
                          +:+ int_digits +:+ frac +:+ expo), read)
      end
  end.

(** A value that is neither a string nor a container, with the number of
    bytes read, in the order of the library's scanner. *)
Definition scan_scalar (s : string) : option (json * nat) :=
  if PyStr.startswith "null" s then Some (JNull, 4%nat)
  else if PyStr.startswith "true" s then Some (JBool true, 4%nat)
  else if PyStr.startswith "false" s then Some (JBool false, 5%nat)
  else
    match scan_number s with
    | Some r => Some r
    | None =>
        if PyStr.startswith "NaN" s then Some (JFloat "NaN", 3%nat)
        else if PyStr.startswith "Infinity" s
        then Some (JFloat "Infinity", 8%nat)
        else if PyStr.startswith "-Infinity" s
        then Some (JFloat "-Infinity", 9%nat)
        else None
    end.

(** The tokens of a document; [skip] counts the bytes of the last token
    still to be passed over. White space between tokens is space, tab,
    line feed and carriage return. *)
Fixpoint lex (skip : nat) (s : string) : option (list token) :=
  match s with
  | EmptyString => Some []
  | String c rest =>
      match skip with
      | S k => lex k rest
      | O =>
          let single (t : token) := cons t <$> lex 0 rest in
          match c with
          | " "%char | "009"%char | "010"%char | "013"%char => lex 0 rest
          | "{"%char => single TLBrace
          | "}"%char => single TRBrace
          | "["%char => single TLBracket
          | "]"%char => single TRBracket
          | ":"%char => single TColon
          | ","%char => single TComma
          | "034"%char =>
              match scan_string rest with
              | Some (str, rest') =>
                  cons (TStr str) <$>
                    lex (String.length rest - String.length rest') rest
              | None => None
              end
          | _ =>
              match scan_scalar s with
              | Some (v, read) => cons (TScalar v) <$> lex (read - 1) rest
              | None => None
              end
          end
      end
  end.

(** The container under construction and what may come next in it. *)
Inductive frame : Type :=
| ArrOpen (acc : list json)                   (* after '[': value or ']' *)
| ArrComma (acc : list json)                  (* after ',': value *)
| ArrValue (acc : list json)                  (* after a value: ',' or ']' *)
| ObjOpen                                     (* after '{': key or '}' *)
| ObjKey (acc : list (string * json)) (k : string)    (* after a key: ':' *)
| ObjColon (acc : list (string * json)) (k : string)  (* after ':': value *)
| ObjValue (acc : list (string * json))       (* after a value: ',' or '}' *)
| ObjComma (acc : list (string * json)).      (* after ',': key *)

(** The reader is either before the document, inside containers, or past
    the document. *)
Inductive state : Type :=
| Start
| Inside (top : frame) (below : list frame)
| Done (v : json).

(** A complete value [v] is handed to the innermost container. *)
Definition deliver (v : json) (st : state) : option state :=
  match st with
  | Start => Some (Done v)
  | Inside (ArrOpen acc) below | Inside (ArrComma acc) below =>
      Some (Inside (ArrValue (acc ++ [v])) below)
  | Inside (ObjColon acc k) below =>
      Some (Inside (ObjValue (dict_set k v acc)) below)
  | _ => None
  end.

(** Closing a container hands its value to the state below it. *)
Definition close (v : json) (below : list frame) : option state :=
  match below with
  | [] => Some (Done v)
  | f :: below' => deliver v (Inside f below')
  end.

Definition push (f : frame) (st : state) : option state :=
  match st with
  | Start => Some (Inside f [])
  | Inside (ArrOpen acc) below => Some (Inside f (ArrOpen acc :: below))
  | Inside (ArrComma acc) below => Some (Inside f (ArrComma acc :: below))
  | Inside (ObjColon acc k) below => Some (Inside f (ObjColon acc k :: below))
  | _ => None
  end.

Definition step (st : state) (t : token) : option state :=
  match t with
  | TLBracket => push (ArrOpen []) st
  | TLBrace => push ObjOpen st
  | TRBracket =>
      match st with
      | Inside (ArrOpen acc) below | Inside (ArrValue acc) below =>
          close (JArr acc) below
      | _ => None
      end
  | TRBrace =>
      match st with
      | Inside ObjOpen below => close (JObj []) below
      | Inside (ObjValue acc) below => close (JObj acc) below
      | _ => None
      end
  | TComma =>
      match st with
      | Inside (ArrValue acc) below => Some (Inside (ArrComma acc) below)
      | Inside (ObjValue acc) below => Some (Inside (ObjComma acc) below)
      | _ => None
      end
  | TColon =>
      match st with
      | Inside (ObjKey acc k) below => Some (Inside (ObjColon acc k) below)
      | _ => None
      end
  | TStr s =>
      match st with
      | Inside ObjOpen below => Some (Inside (ObjKey [] s) below)
      | Inside (ObjComma acc) below => Some (Inside (ObjKey acc s) below)
      | _ => deliver (JStr s) st
      end
  | TScalar v => deliver v st
  end.

Fixpoint run (st : state) (ts : list token) : option state :=
  match ts with
  | [] => Some st
  | t :: ts' =>
      match step st t with
      | Some st' => run st' ts'
      | None => None
      end
  end.

(** [json.loads(s)] for a [str] argument. *)
Definition loads (s : string) : outcome json :=
  match lex 0 s with
  | Some ts =>
      match run Start ts with
      | Some (Done v) => Returned v
      | _ => Raised decode_error
      end
  | None => Raised decode_error
  end.

End Json.

(* ------------------------------------------------------------------ *)
(** ** Tool registry: [TOOL_DESCRIPTIONS] and [_get_tools_for_api] *)
(* ------------------------------------------------------------------ *)

(** One entry of the ['parameters'] dict of a tool description. The
    source reads ['type'] by subscript (so it is there), and
    ['description'], ['optional'] and ['default'] through [get] and [in]
    ([None] stands for an absent key). *)
Record param_info := {
  p_type : string;
  p_description : option string;
  p_optional : option bool;
  p_default : option json
}.

(** One value of [TOOL_DESCRIPTIONS]; ['parameters'] is read with
    [info.get('parameters', {})]. *)
Record tool_description := {
  td_name : string;
  td_description : string;
  td_parameters : option (list (string * param_info))
}.

(** The dicts built for the service. *)
Record property := {
  prop_type : string;
  prop_description : string
}.

Record input_schema := {
  schema_type : string;
  properties : list (string * property);
  required : list string
}.

Record tool_schema := {
  ts_name : string;
  ts_description : string;
  ts_input_schema : input_schema
}.

(** agent.py line 64:
    [param_info['type'].replace('int', 'integer')
                       .replace('str', 'string')
                       .replace('bool', 'boolean')] *)
Definition normalize_type (t : string) : string :=
  PyStr.replace "bool" "boolean"
    (PyStr.replace "str" "string"
       (PyStr.replace "int" "integer" t)).

(** [not param_info.get('optional', False)] and
    ['default' not in param_info] (agent.py lines 69-70). *)
Definition is_required (info : param_info) : bool :=
  negb (default false (p_optional info)) &&
  match p_default info with
  | None => true
  | Some _ => false
  end.

(** Body of the inner loop (agent.py lines 62-71) on the schema under
    construction. *)
Definition add_parameter (schema : input_schema)
    (param : string * param_info) : input_schema :=
  let '(param_name, info) := param in
  let prop := {| prop_type := normalize_type (p_type info);
                 prop_description := default "" (p_description info) |} in
  {| schema_type := schema_type schema;
     properties := dict_set param_name prop (properties schema);
     required :=
       if is_required info then required schema ++ [param_name]
       else required schema |}.

(** Body of the outer loop (agent.py lines 51-73). *)
Definition tool_for_api (entry : string * tool_description) : tool_schema :=
  let '(name, info) := entry in
  {| ts_name := name;
     ts_description := td_description info;
     ts_input_schema :=
       fold_left add_parameter (default [] (td_parameters info))
         {| schema_type := "object"; properties := []; required := [] |} |}.

Definition _get_tools_for_api
    (descriptions : list (string * tool_description)) : list tool_schema :=
  map tool_for_api descriptions.

(** The type string mentions none of the three internal type names. *)
Definition plain_type (t : string) : bool :=
  negb (PyStr.contains "int" t) &&
  negb (PyStr.contains "str" t) &&
  negb (PyStr.contains "bool" t).

(** The table of tools.py (lines 161-205), in the order of the source. *)
Definition param (type description : string) (optional : option bool)
    (default : option json) : param_info :=
  {| p_type := type; p_description := Some description;
     p_optional := optional; p_default := default |}.

Definition TOOL_DESCRIPTIONS : list (string * tool_description) :=
  [ ("query_papers_by_year",
     {| td_name := "query_papers_by_year";
        td_description := "按年份统计论文数量，返回每年的论文数、引用总数和专利总数";
        td_parameters := Some
          [ ("start_year", param "int" "起始年份" None (Some (JInt 2014)));
            ("end_year", param "int" "结束年份" None (Some (JInt 2024))) ] |});
    ("query_top_authors",
     {| td_name := "query_top_authors";
        td_description := "查询排名靠前的作者，可按论文数、h-index或生产力排序";
        td_parameters := Some
          [ ("top_n", param "int" "返回数量" None (Some (JInt 10)));
            ("metric",
             param "str" "排序指标: paper_count, h_index, productivity"
               None (Some (JStr "paper_count"))) ] |});
    ("query_citation_stats",
     {| td_name := "query_citation_stats";
        td_description := "获取引用统计信息，包括总论文数、内部引用数、平均引用等";
        td_parameters := Some [] |});
    ("query_papers_with_filters",
     {| td_name := "query_papers_with_filters";
        td_description := "根据条件筛选论文，支持年份、最低引用数、是否有专利";
        td_parameters := Some
          [ ("year", param "int" "年份过滤" (Some true) None);
            ("min_citations", param "int" "最低引用数" (Some true) None);
            ("has_patents", param "bool" "是否有专利引用" (Some true) None);
            ("limit", param "int" "返回数量限制" None (Some (JInt 20))) ] |});
    ("query_collaboration_stats",
     {| td_name := "query_collaboration_stats";
        td_description := "获取合作统计，包括作者数、平均作者数等";
        td_parameters := Some [] |});
    ("query_yearly_trend",
     {| td_name := "query_yearly_trend";
        td_description := "查询年度趋势，可选择论文数、引用数或专利数";
        td_parameters := Some
          [ ("metric",
             param "str" "指标: papers, citations, patents"
               None (Some (JStr "papers"))) ] |}) ].

(* ------------------------------------------------------------------ *)
(** ** Messages exchanged with the reasoning service *)
(* ------------------------------------------------------------------ *)

(** A content block of a reply. Only a text block has the attribute
    [text]; only a tool-use block has the type ["tool_use"]. *)
Inductive block : Type :=
| TextBlock (text : string)
| ToolUseBlock (id name : string) (input : json)
| OtherBlock.

Definition is_tool_use (b : block) : bool :=
  match b with
  | ToolUseBlock _ _ _ => true
  | _ => false
  end.

(** The call ids of the tool-use blocks, in order. *)
Definition call_ids (bs : list block) : list string :=
  flat_map (fun b => match b with
                     | ToolUseBlock id _ _ => [id]
                     | _ => []
                     end) bs.

(** [{"type": "tool_result", "tool_use_id": ..., "content": ...}] *)
Record tool_result := {
  tr_type : string;
  tool_use_id : string;
  tr_content : string
}.

(** The three kinds of ["content"] the agent puts in a message. *)
Inductive message_content : Type :=
| Text (s : string)
| Blocks (bs : list block)
| ToolResults (rs : list tool_result).

Record message := {
  role : string;
  content : message_content
}.

(** The keyword arguments of [client.messages.create]. *)
Record request := {
  req_model : string;
  req_max_tokens : Z;
  req_system : string;
  req_tools : list tool_schema;
  req_messages : list message
}.

Record response := {
  stop_reason : string;
  resp_content : list block
}.

(** One element of [collected_data]. *)
Record call_record := {
  tool : string;
  args : json;
  result : json
}.

(** The dict returned by [chat]. *)
Record chat_result := {
  text : string;
  vega_lite : option json;
  data : list call_record
}.

(* ------------------------------------------------------------------ *)
(** ** The matches of the fenced-block pattern *)
(* ------------------------------------------------------------------ *)

(** Length of the prefix of [s] matched by the opening fence with one of
    the two labels, a backquote fence followed by [vega-lite] or [json];
    [0] if [s] does not start with one. *)
Definition opening_length (s : string) : nat :=
  if PyStr.startswith "```vega-lite" s then 12
  else if PyStr.startswith "```json" s then 7
  else 0.

(** [re.findall(vega_pattern, s)] for the pattern of agent.py line 155:
    an opening fence with its label, white space, then the group, which
    is the shortest text up to the next fence. The matches are looked for
    from left to right and do not overlap; where no match starts, the
    search moves one character on. The white space is taken as long as
    possible: giving some of it back to the group cannot produce a fence.
    Every call is on a shorter string, so that [fuel] is the length of
    the text. *)
Fixpoint findall_from (fuel : nat) (s : string) : list string :=
  match fuel with
  | O => []
  | S fuel' =>
      match s with
      | EmptyString => []
      | String _ s' =>
          match opening_length s with
          | O => findall_from fuel' s'
          | S n =>
              match PyStr.split_first "```"
                      (PyStr.lstrip (PyStr.drop (S n) s)) with
              | Some (inner, after) => inner :: findall_from fuel' after
              | None => findall_from fuel' s'
              end
          end
      end
  end.

Definition findall (s : string) : list string :=
  findall_from (String.length s) s.

(* ------------------------------------------------------------------ *)
(** ** The agent *)
(* ------------------------------------------------------------------ *)

(** The attributes of a [SciSciNetAgent] other than the client. *)
Record agent := {
  api_key : string;
  model : string;
  system_prompt : string
}.

Definition SYSTEM_PROMPT : string :=
"You are a data analysis assistant for UMD Computer Science research data from SciSciNet.

You have access to these tools to query the data:
1. query_papers_by_year(start_year, end_year) - Get paper counts by year
2. query_top_authors(top_n, metric) - Get top authors by paper_count/h_index/productivity
3. query_citation_stats() - Get overall citation statistics
4. query_papers_with_filters(year, min_citations, has_patents, limit) - Filter papers
5. query_collaboration_stats() - Get collaboration statistics
6. query_yearly_trend(metric) - Get yearly trends for papers/citations/patents

When the user asks a question:
1. First determine which tool(s) to call to get the data
2. Call the appropriate tool(s)
3. Analyze the results
4. If visualization is appropriate, generate a Vega-Lite specification
5. Respond with both the analysis and the visualization spec

For Vega-Lite charts, use this format in your response:
```vega-lite
{your vega-lite spec here}
```

Keep responses concise and data-driven. Always include specific numbers from the data.".

(** The agent with another credential. *)
Definition with_api_key (key : string) (self : agent) : agent :=
  {| api_key := key; model := model self; system_prompt := system_prompt self |}.

(** Truth value of an [Optional[str]]: [None] and the empty string are
    false. *)
Definition truthy (v : option string) : bool :=
  match v with
  | Some (String _ _) => true
  | _ => false
  end.

(** [a or b] *)
Definition py_or (a b : option string) : option string :=
  if truthy a then a else b.

Module SciSciNetAgent.

(** [__init__(self, api_key=None)] (agent.py lines 15-46); [getenv] is
    [os.getenv] on the environment of the process. *)
Definition __init__ (getenv : string -> option string)
    (api_key : option string) : outcome agent :=
  let self_api_key := py_or api_key (getenv "ANTHROPIC_API_KEY") in
  if negb (truthy self_api_key)
  then Raised (Exn "ValueError" "ANTHROPIC_API_KEY not found")
  else
    Returned {| api_key := default EmptyString self_api_key;
                model := "claude-sonnet-4-20250514";
                system_prompt := SYSTEM_PROMPT |}.

(** [{"error": msg}] *)
Definition error_result (msg : string) : json := JObj [("error", JStr msg)].

Section Agent.

(** [TOOLS]: the dispatch table, from a name to the call [f( **args )]. *)
Variable TOOLS : gmap string (json -> outcome json).

(** [client.messages.create], [json.loads] and [json.dumps]. *)
Variable create : request -> outcome response.
Variable json_loads : string -> outcome json.
Variable json_dumps : json -> string.

(** [_execute_tool(self, name, args)] (agent.py lines 77-86). *)
Definition _execute_tool (name : string) (args : json) : outcome json :=
  match TOOLS !! name with
  | None => Returned (error_result ("Unknown tool: " +:+ name))
  | Some f =>
      try_except
        (result ← f args; Returned result)
        (fun e => Returned (error_result (exn_str e)))
  end.

(** The value [_execute_tool] hands back, case by case: the error payload
    for an unknown name or a fault, the tool's own result otherwise. *)
Definition tool_value (name : string) (args : json) : json :=
  match TOOLS !! name with
  | None => error_result ("Unknown tool: " +:+ name)
  | Some f =>
      match f args with
      | Returned r => r
      | Raised e => error_result (exn_str e)
      end
  end.

(** The record and the tool result that one content block gives rise
    to: one of each for a tool-use block, none for the others. *)
Definition records_of (b : block) : list call_record :=
  match b with
  | ToolUseBlock _ name input =>
      [{| tool := name; args := input; result := tool_value name input |}]
  | _ => []
  end.

Definition results_of (b : block) : list tool_result :=
  match b with
  | ToolUseBlock id name input =>
      [{| tr_type := "tool_result";
          tool_use_id := id;
          tr_content := json_dumps (tool_value name input) |}]
  | _ => []
  end.

(** The request of agent.py lines 105-111 and 137-143. *)
Definition make_request (self : agent) (tools : list tool_schema)
    (messages : list message) : request :=
  {| req_model := model self;
     req_max_tokens := 4096;
     req_system := system_prompt self;
     req_tools := tools;
     req_messages := messages |}.

(** The loop over [tool_uses] (agent.py lines 119-131), on
    [collected_data] and [tool_results]. *)
Fixpoint execute_tool_uses (tool_uses : list block)
    (collected_data : list call_record) (tool_results : list tool_result)
  : outcome (list call_record * list tool_result) :=
  match tool_uses with
  | [] => Returned (collected_data, tool_results)
  | ToolUseBlock id name input :: rest =>
      result ← _execute_tool name input;
      execute_tool_uses rest
        (collected_data ++ [{| tool := name; args := input; result := result |}])
        (tool_results ++ [{| tr_type := "tool_result";
                             tool_use_id := id;
                             tr_content := json_dumps result |}])
  | _ :: rest => execute_tool_uses rest collected_data tool_results
  end.

(** One turn of the [while] loop up to the next request (agent.py lines
    115-135): the new [messages] and [collected_data]. *)
Definition tool_round (messages : list message)
    (collected_data : list call_record) (reply : response)
  : outcome (list message * list call_record) :=
  let tool_uses := List.filter is_tool_use (resp_content reply) in
  '(collected_data', tool_results) ← execute_tool_uses tool_uses collected_data [];
  Returned
    (messages ++
       [ {| role := "assistant"; content := Blocks (resp_content reply) |};
         {| role := "user"; content := ToolResults tool_results |} ],
     collected_data').

(** The [while] loop (agent.py lines 114-143), at most [fuel] turns:
    the final reply and [collected_data], or [None] when the service asks
    for tools beyond [fuel] turns. *)
Fixpoint tool_loop (fuel : nat) (self : agent) (tools : list tool_schema)
    (messages : list message) (collected_data : list call_record)
    (reply : response) : outcome (option (response * list call_record)) :=
  if String.eqb (stop_reason reply) "tool_use" then
    match fuel with
    | O => Returned None
    | S fuel' =>
        '(messages', collected_data') ← tool_round messages collected_data reply;
        reply' ← create (make_request self tools messages');
        tool_loop fuel' self tools messages' collected_data' reply'
    end
  else Returned (Some (reply, collected_data)).

(** The text of the final reply (agent.py lines 146-149). *)
Fixpoint text_of (blocks : list block) : string :=
  match blocks with
  | [] => EmptyString
  | TextBlock t :: rest => t +:+ text_of rest
  | _ :: rest => text_of rest
  end.

(** The test of agent.py lines 162-168 on a parsed candidate: whether it
    is taken as the specification. [and], [or] and [elif] evaluate their
    right operand only when needed. *)
Definition accepts (spec : json) : outcome bool :=
  has_schema ← py_in "$schema" spec;
  clause_a ←
    (if has_schema : bool
     then schema ← py_get spec "$schema" (JStr EmptyString); py_in "vega" schema
     else Returned false);
  if clause_a : bool then Returned true
  else
    has_data ← py_in "data" spec;
    if has_data : bool
    then
      has_mark ← py_in "mark" spec;
      if has_mark : bool then Returned true else py_in "layer" spec
    else Returned false.

(** The loop over [matches] (agent.py lines 158-170): [Some spec] at the
    [break], [None] when the loop runs to its end. Only a
    [JSONDecodeError] raised in the body is handled. *)
Fixpoint first_accepted (matches : list string) : outcome (option json) :=
  match matches with
  | [] => Returned None
  | m :: rest =>
      step ←
        try_except_class "JSONDecodeError"
          (spec ← json_loads (PyStr.strip m);
           ok ← accepts spec;
           Returned (if ok : bool then Some spec else None))
          (Returned None);
      match step with
      | Some spec => Returned (Some spec)
      | None => first_accepted rest
      end
  end.

(** The two clauses of the acceptance rule, as the system description
    words them for a document with fields: the schema identifier is a
    string that contains the marker; there is a [data] field and a [mark]
    or a [layer] field. *)
Definition clause_a (fields : list (string * json)) : bool :=
  match dict_get "$schema" fields with
  | Some (JStr s) => PyStr.contains "vega" s
  | _ => false
  end.

Definition clause_b (fields : list (string * json)) : bool :=
  dict_has "data" fields && (dict_has "mark" fields || dict_has "layer" fields).

(** The first candidate that parses to a document with fields which
    satisfies a clause; the candidates that do not parse to one, or
    satisfy no clause, are passed over. *)
Fixpoint first_chart (matches : list string) : option json :=
  match matches with
  | [] => None
  | m :: rest =>
      match json_loads (PyStr.strip m) with
      | Returned (JObj fields) =>
          if clause_a fields || clause_b fields then Some (JObj fields)
          else first_chart rest
      | _ => first_chart rest
      end
  end.

(** A candidate is regular when it fails to parse with a
    [JSONDecodeError], or parses to a dict whose ['$schema'], if it has
    one, is a string. *)
Definition regular (m : string) : Prop :=
  match json_loads (PyStr.strip m) with
  | Raised e => exn_class e = "JSONDecodeError"
  | Returned (JObj fields) =>
      match dict_get "$schema" fields with
      | Some (JStr _) | None => True
      | Some _ => False
      end
  | Returned _ => False
  end.

Definition regularb (m : string) : bool :=
  match json_loads (PyStr.strip m) with
  | Raised e => String.eqb (exn_class e) "JSONDecodeError"
  | Returned (JObj fields) =>
      match dict_get "$schema" fields with
      | Some (JStr _) | None => true
      | Some _ => false
      end
  | Returned _ => false
  end.

(** agent.py lines 152-170. *)
Definition extract_vega_lite (text_response : string) : outcome (option json) :=
  first_accepted (findall text_response).

(** [chat(self, user_message)] (agent.py lines 88-176) with at most
    [fuel] turns of the tool loop; [None] when they do not suffice. *)
Definition chat (fuel : nat) (self : agent) (user_message : string)
  : outcome (option chat_result) :=
  let messages := [ {| role := "user"; content := Text user_message |} ] in
  let tools := _get_tools_for_api TOOL_DESCRIPTIONS in
  reply ← create (make_request self tools messages);
  final ← tool_loop fuel self tools messages [] reply;
  match final with
  | None => Returned None
  | Some (reply', collected_data) =>
      let text_response := text_of (resp_content reply') in
      vega ← extract_vega_lite text_response;
      Returned (Some {| text := text_response;
                        vega_lite := vega;
                        data := collected_data |})
  end.

End Agent.

End SciSciNetAgent.

(* ------------------------------------------------------------------ *)
(** ** The chart helper of agent.py *)
(* ------------------------------------------------------------------ *)

Section Charts.

(** [s.title()] of the Python library. *)
Variable str_title : string -> string.

(** One channel of the encoding: [field.replace('_', ' ').title()] is its
    title. *)
Definition channel (field type : string) : json :=
  JObj [ ("field", JStr field);
         ("type", JStr type);
         ("title", JStr (str_title (PyStr.replace "_" " " field))) ].

(** [generate_vega_lite_spec] (agent.py lines 179-202). The test of line
    199 reads ['metric' in data[0]] when [data] is not empty and the
    empty dict, which is false, when it is. *)
Definition generate_vega_lite_spec (data : list json)
    (chart_type x_field y_field title : string) : outcome json :=
  let encoding :=
    [ ("x", channel x_field
              (if String.eqb chart_type "bar" then "ordinal"
               else "quantitative"));
      ("y", channel y_field "quantitative") ] in
  let spec :=
    [ ("$schema", JStr "https://vega.github.io/schema/vega-lite/v5.json");
      ("title", JStr title);
      ("width", JInt 600);
      ("height", JInt 400);
      ("data", JObj [("values", JArr data)]);
      ("mark", JObj [("type", JStr chart_type); ("tooltip", JBool true)]);
      ("encoding", JObj encoding) ] in
  has_metric ←
    match data with
    | first :: _ => py_in "metric" first
    | [] => Returned false
    end;
  if has_metric : bool
  then
    Returned
      (JObj (dict_set "encoding"
               (JObj (dict_set "color"
                        (JObj [("field", JStr "metric");
                               ("type", JStr "nominal")])
                        encoding))
               spec))
  else Returned (JObj spec).

End Charts.

(** [d[k1][k2]] on nested dicts, [None] where a key is missing or the
    value is no dict. *)
Definition dict_path (k1 k2 : string) (v : json) : option json :=
  match v with
  | JObj fields =>
      match dict_get k1 fields with
      | Some (JObj inner) => dict_get k2 inner
      | _ => None
      end
  | _ => None
  end.

(* ------------------------------------------------------------------ *)
(** ** The query tools of tools.py *)
(* ------------------------------------------------------------------ *)

Module Tools.

(** A row of the papers data frame, with the four columns that
    [query_papers_with_filters] reads and returns. *)
Record paper := {
  col_paperid : string;
  col_year : Z;
  col_cited_by_count : Z;
  col_patent_count : Z
}.

(** [df.head(n)]: the first [n] rows, or all but the last [-n] rows when
    [n] is negative. *)
Definition head {A : Type} (n : Z) (rows : list A) : list A :=
  if (0 <=? n)%Z then take (Z.to_nat n) rows
  else take (length rows - Z.to_nat (- n)) rows.

Section Query.

(** [df.sort_values('cited_by_count', ascending=False)] of pandas. *)
Variable sort_by_citations_desc : list paper -> list paper.

(** [query_papers_with_filters] (tools.py lines 98-118) on the rows [df]
    that [load_papers()] returns. An argument left out is [None]; an
    [int] is true when it is not zero, [None] is false. *)
Definition query_papers_with_filters (df : list paper)
    (year min_citations : option Z) (has_patents : option bool)
    (limit : Z) : list paper :=
  let df :=
    match year with
    | Some y =>
        if negb (y =? 0)%Z                                  (* if year: *)
        then List.filter (fun p => (col_year p =? y)%Z) df
        else df
    | None => df
    end in
  let df :=
    match min_citations with
    | Some m =>
        if negb (m =? 0)%Z                                  (* if min_citations: *)
        then List.filter (fun p => (m <=? col_cited_by_count p)%Z) df
        else df
    | None => df
    end in
  let df :=
    match has_patents with
    | Some true =>                                          (* if has_patents: *)
        List.filter (fun p => (0 <? col_patent_count p)%Z) df
    | Some false | None => df
    end in
  head limit (sort_by_citations_desc df).

End Query.

(** *** The grouped queries *)

(** The sum of an [int64] column wraps around. *)
Definition int64 (z : Z) : Z := ((z + 2 ^ 63) mod 2 ^ 64 - 2 ^ 63)%Z.

(** The exact sum of a list of integers. *)
Definition total (cells : list Z) : Z := fold_right Z.add 0%Z cells.

Definition column_sum (cells : list Z) : Z := int64 (total cells).

(** The keys of [df.groupby(column)]: the distinct values of the column,
    in ascending order. [lt] is the order of the column. *)
Section GroupKeys.

Context {K : Type}.
Variable lt : K -> K -> bool.

Fixpoint insert_key (k : K) (keys : list K) : list K :=
  match keys with
  | [] => [k]
  | k' :: rest =>
      if lt k k' then k :: keys
      else if lt k' k then k' :: insert_key k rest
      else keys
  end.

Definition group_keys (cells : list K) : list K :=
  fold_right insert_key [] cells.

End GroupKeys.

(** The order of Python on strings: position by position, on the
    characters. *)
Fixpoint str_lt (s t : string) : bool :=
  match s, t with
  | _, EmptyString => false
  | EmptyString, String _ _ => true
  | String a s', String b t' =>
      if (nat_of_ascii a <? nat_of_ascii b)%nat then true
      else if (nat_of_ascii b <? nat_of_ascii a)%nat then false
      else str_lt s' t'
  end.

(** A row of [query_papers_by_year]. *)
Record year_row := {
  yr_year : Z;
  yr_paper_count : Z;
  yr_total_citations : Z;
  yr_total_patents : Z
}.

Definition papers_of_year (df : list paper) (y : Z) : list paper :=
  List.filter (fun p => (col_year p =? y)%Z) df.

(** [query_papers_by_year] (tools.py lines 35-50): the papers of the
    years from [start_year] to [end_year], grouped by year, with the
    number of papers and the sums of the two count columns. *)
Definition query_papers_by_year (df : list paper) (start_year end_year : Z)
  : list year_row :=
  let df := List.filter (fun p => (start_year <=? col_year p)%Z
                                  && (col_year p <=? end_year)%Z) df in
  map (fun y =>
         let group := papers_of_year df y in
         {| yr_year := y;
            yr_paper_count := Z.of_nat (length group);
            yr_total_citations := column_sum (map col_cited_by_count group);
            yr_total_patents := column_sum (map col_patent_count group) |})
    (group_keys Z.ltb (map col_year df)).

(** A row of [query_yearly_trend]. *)
Record trend_row := {
  trend_year : Z;
  trend_value : Z;
  trend_metric : string
}.

(** [query_yearly_trend] (tools.py lines 139-157): the papers from 2000
    on, grouped by year; the value of a year is chosen by [metric], and
    a [metric] that is none of the three names counts the papers. *)
Definition query_yearly_trend (df : list paper) (metric : string)
  : list trend_row :=
  let df := List.filter (fun p => (2000 <=? col_year p)%Z) df in
  let value (group : list paper) : Z :=
    if String.eqb metric "papers" then Z.of_nat (length group)
    else if String.eqb metric "citations"
    then column_sum (map col_cited_by_count group)
    else if String.eqb metric "patents"
    then column_sum (map col_patent_count group)
    else Z.of_nat (length group) in
  map (fun y => {| trend_year := y;
                   trend_value := value (papers_of_year df y);
                   trend_metric := metric |})
    (group_keys Z.ltb (map col_year df)).

(** [series.max()]: [None] stands for the [nan] of an empty column. *)
Definition column_max (cells : list Z) : option Z :=
  match cells with
  | [] => None
  | c :: rest => Some (fold_right Z.max c rest)
  end.

(** [int(x)] on the result of [max()]. *)
Definition int_of_max (m : option Z) : outcome Z :=
  match m with
  | Some z => Returned z
  | None => Raised (Exn "ValueError" "cannot convert float NaN to integer")
  end.

(** A row of the paper-author data frame. *)
Record paper_author := {
  pa_paperid : string;
  pa_authorid : string
}.

Section Statistics.

(** The floats of Python and [series.mean()] on an integer column. *)
Variable float : Type.
Variable mean : list Z -> float.

Record citation_stats := {
  total_papers : Z;
  total_internal_citations : Z;
  avg_citations_per_paper : float;
  max_citations : Z;
  papers_with_patents : Z;
  total_patent_citations : Z
}.

(** [query_citation_stats] (tools.py lines 81-95) on the papers and on
    the rows of the references data frame. The entries of the dict are
    evaluated in order. *)
Definition query_citation_stats {R : Type} (df : list paper) (df_refs : list R)
  : outcome citation_stats :=
  let total := Z.of_nat (length df) in
  let internal := Z.of_nat (length df_refs) in
  let avg := mean (map col_cited_by_count df) in
  top ← int_of_max (column_max (map col_cited_by_count df));
  Returned
    {| total_papers := total;
       total_internal_citations := internal;
       avg_citations_per_paper := avg;
       max_citations := top;
       papers_with_patents :=
         Z.of_nat (length (List.filter
                             (fun p => (0 <? col_patent_count p)%Z) df));
       total_patent_citations := column_sum (map col_patent_count df) |}.

Record collaboration_stats := {
  total_authors : Z;
  avg_authors_per_paper : float;
  max_authors_on_paper : Z;
  single_author_papers : Z;
  multi_author_papers : Z
}.

(** [df_paa.groupby('paperid').size()]: for every paper, in the order
    of the paper ids, the number of its rows. *)
Definition authors_per_paper (df_paa : list paper_author) : list Z :=
  map (fun pid =>
         Z.of_nat (length (List.filter
                             (fun r => String.eqb (pa_paperid r) pid) df_paa)))
    (group_keys str_lt (map pa_paperid df_paa)).

(** [query_collaboration_stats] (tools.py lines 121-136). *)
Definition query_collaboration_stats (df_paa : list paper_author)
  : outcome collaboration_stats :=
  let sizes := authors_per_paper df_paa in
  let authors :=
    Z.of_nat (length (group_keys str_lt (map pa_authorid df_paa))) in
  let avg := mean sizes in
  top ← int_of_max (column_max sizes);
  Returned
    {| total_authors := authors;
       avg_authors_per_paper := avg;
       max_authors_on_paper := top;
       single_author_papers :=
         Z.of_nat (length (List.filter (fun n => (n =? 1)%Z) sizes));
       multi_author_papers :=
         Z.of_nat (length (List.filter (fun n => (1 <? n)%Z) sizes)) |}.

End Statistics.

End Tools.

(** The dispatch table [TOOLS] of tools.py (lines 208-215). Each entry
    is the Python function as it is called through [f( **args )]. *)
Section DispatchTable.

Variables query_papers_by_year query_top_authors query_citation_stats
  query_papers_with_filters query_collaboration_stats query_yearly_trend
  : json -> outcome json.

Definition TOOLS : gmap string (json -> outcome json) :=
  list_to_map
    [ ("query_papers_by_year", query_papers_by_year);
      ("query_top_authors", query_top_authors);
      ("query_citation_stats", query_citation_stats);
      ("query_papers_with_filters", query_papers_with_filters);
      ("query_collaboration_stats", query_collaboration_stats);
      ("query_yearly_trend", query_yearly_trend) ].

End DispatchTable.

(* ------------------------------------------------------------------ *)
(** ** The HTTP handlers of app.py *)
(* ------------------------------------------------------------------ *)

Module App.


Definition trend_row_json (r : Tools.trend_row) : json :=
  JObj [ ("year", JInt (Tools.trend_year r));
         ("value", JInt (Tools.trend_value r));
         ("metric", JStr (Tools.trend_metric r)) ].

(** [request.args.get(key, default)]: the first value of the key in the
    query string, or the default. *)
Definition args_get (args : list (string * string)) (key default : string)
  : string :=
  match dict_get key args with
  | Some v => v
  | None => default
  end.

(** What the body of a response holds, and a response with its status. *)
Inductive payload : Type :=
| ChatPayload (r : chat_result)
| ErrorPayload (error : string).

Record http_response := {
  body : payload;
  status : Z
}.

(** [get_agent] (app.py lines 26-33) on the global [_agent]: the agent
    or the exception, and the new value of the global. *)
Definition get_agent (getenv : string -> option string)
    (_agent : option agent) : outcome agent * option agent :=
  match _agent with
  | Some a => (Returned a, _agent)
  | None =>
      let api_key := getenv "ANTHROPIC_API_KEY" in
      if negb (truthy api_key)
      then (Raised (Exn "ValueError" "ANTHROPIC_API_KEY not set"), None)
      else
        match SciSciNetAgent.__init__ getenv api_key with
        | Returned a => (Returned a, Some a)
        | Raised e => (Raised e, None)
        end
  end.

(** [health] (app.py lines 182-189): the dict given to [jsonify]. *)
Definition health (getenv : string -> option string) : json :=
  JObj [ ("status", JStr "ok");
         ("api_key_configured",
          JBool (truthy (getenv "ANTHROPIC_API_KEY"))) ].

Section Endpoints.

(** [int(s)] of Python, [None] for its [ValueError]; [s.title()]; and
    the rows that [load_papers()] returns. *)
Variable py_int : string -> option Z.
Variable str_title : string -> string.
Variable df : list Tools.paper.



(** [yearly_trend] (app.py lines 162-179). *)
Definition yearly_trend (args : list (string * string)) : outcome json :=
  let metric := args_get args "metric" "papers" in
  let data := map trend_row_json (Tools.query_yearly_trend df metric) in
  vega_spec ←
    generate_vega_lite_spec str_title data "line" "year" "value"
      ("Yearly Trend: " +:+ str_title metric);
  Returned (JObj [("data", JArr data); ("vega_lite", vega_spec)]).

End Endpoints.

Section Chat.

Variable TOOLS : gmap string (json -> outcome json).
Variable create : request -> outcome response.
Variable json_loads : string -> outcome json.
Variable json_dumps : json -> string.

(** Whether a class derives from [ValueError]; the truth value of a
    float, given by its literal; and [agent.chat] on a message that is
    no string, which is left to the client library. *)
Variable is_value_error : string -> bool.
Variable float_truthy : string -> bool.
Variable chat_other : agent -> json -> outcome (option chat_result).

(** The truth value of a JSON value. *)
Definition py_truthy (v : json) : bool :=
  match v with
  | JNull => false
  | JBool b => b
  | JInt n => negb (n =? 0)%Z
  | JFloat literal => float_truthy literal
  | JStr s => negb (String.eqb s EmptyString)
  | JArr items => match items with [] => false | _ => true end
  | JObj items => match items with [] => false | _ => true end
  end.

(** The two handlers of app.py lines 81-84. *)
Definition error_response (e : exn) : http_response :=
  {| body := ErrorPayload
               (if is_value_error (exn_class e) then exn_str e
                else "Agent error: " +:+ exn_str e);
     status := 500 |}.

(** [chat] (app.py lines 52-84) with at most [fuel] turns of the tool
    loop: [request_json] is what [request.get_json()] returns or raises,
    [_agent] the global; the result is the response and the new value of
    the global, or [None] when the turns do not suffice. *)
Definition chat (fuel : nat) (getenv : string -> option string)
    (request_json : outcome json) (_agent : option agent)
  : option (http_response * option agent) :=
  match request_json with
  | Raised e => Some (error_response e, _agent)
  | Returned data =>
      match py_get data "message" (JStr EmptyString) with
      | Raised e => Some (error_response e, _agent)
      | Returned message =>
          if negb (py_truthy message)
          then Some ({| body := ErrorPayload "Message is required";
                        status := 400 |}, _agent)
          else
            match get_agent getenv _agent with
            | (Raised e, _agent') => Some (error_response e, _agent')
            | (Returned agent, _agent') =>
                match
                  match message with
                  | JStr s =>
                      SciSciNetAgent.chat TOOLS create json_loads json_dumps
                        fuel agent s
                  | _ => chat_other agent message
                  end
                with
                | Raised e => Some (error_response e, _agent')
                | Returned None => None
                | Returned (Some result) =>
                    Some ({| body := ChatPayload result; status := 200 |},
                          _agent')
                end
            end
      end
  end.

End Chat.

End App.

(* ------------------------------------------------------------------ *)
(** ** Scripted collaborators for the examples *)
(* ------------------------------------------------------------------ *)

Module Script.

(** A text with single quotes in place of double quotes, and the lines of
    a text. *)
Definition dq (s : string) : string :=
  string_of_list_ascii
    (map (fun c => if Ascii.eqb c "'"%char then "034"%char else c)
       (list_ascii_of_string s)).

Definition lines (ls : list string) : string :=
  String.concat (String "010"%char EmptyString) ls.

(** A dispatch table in which [query_papers_by_year] answers with two
    rows and [query_top_authors] faults. *)
Definition rows : json :=
  JArr [ JObj [("year", JInt 2020); ("paper_count", JInt 12)];
         JObj [("year", JInt 2021); ("paper_count", JInt 15)] ].

Definition tools : gmap string (json -> outcome json) :=
  TOOLS (fun _ => Returned rows)
        (fun _ => Raised (Exn "KeyError" "'h_index'"))
        (fun _ => Returned (JObj []))
        (fun _ => Returned (JArr []))
        (fun _ => Returned (JObj []))
        (fun _ => Returned (JArr [])).

(** A stand-in for [json.dumps] that only names the type of the value. *)
Definition dumps (v : json) : string := type_name v.

Definition year_args : json :=
  JObj [("start_year", JInt 2020); ("end_year", JInt 2024)].

(** A reply that asks for two tools at once, one of them unknown. *)
Definition two_tools : response :=
  {| stop_reason := "tool_use";
     resp_content :=
       [ TextBlock "Let me look at the data.";
         ToolUseBlock "call_1" "query_papers_by_year" year_args;
         ToolUseBlock "call_2" "papers-by-year" year_args ] |}.

Definition answer_text : string :=
  lines [ "Here is the chart.";
          "```vega-lite";
          dq "{'data': {'values': [{'year': 2020, 'n': 12}]}, 'mark': 'bar'}";
          "```" ].

Definition final_answer : response :=
  {| stop_reason := "end_turn";
     resp_content := [ TextBlock answer_text ] |}.

(** A service that asks for the two tools on the first request and gives
    its final answer on the next one. *)
Definition service (r : request) : outcome response :=
  match req_messages r with
  | [_] => Returned two_tools
  | _ => Returned final_answer
  end.

(** A service that gives its final answer at once. *)
Definition direct_service (r : request) : outcome response :=
  Returned final_answer.

Definition the_agent : agent :=
  {| api_key := "sk-test";
     model := "claude-sonnet-4-20250514";
     system_prompt := SYSTEM_PROMPT |}.

(** Final answers for the extraction: no fenced block; a malformed block
    before a block that has [data] and [mark]; a block that holds a JSON
    document that is not an object. *)
Definition no_block : string := "There were 27 papers in 2020.".

Definition malformed_then_valid : string :=
  lines [ "```json";
          dq "{'data': [1, 2,";
          "```";
          "```json";
          dq "{'data': {'values': []}, 'mark': 'bar'}";
          "```" ].

Definition null_block : string :=
  lines [ "```json"; "null"; "```" ].

Definition number_then_valid : string :=
  lines [ "The total is:";
          "```json";
          "5";
          "```";
          "```vega-lite";
          dq "{'data': {'values': []}, 'mark': 'bar'}";
          "```" ].

Definition schema_null_block : string :=
  lines [ "```json"; dq "{'$schema': null, 'mark': 'bar'}"; "```" ].

Definition string_block : string :=
  lines [ "```json"; dq "'see the data and the mark'"; "```" ].

(** Three rows of papers. *)
Definition papers : list Tools.paper :=
  [ {| Tools.col_paperid := "W1"; Tools.col_year := 2020;
       Tools.col_cited_by_count := 40; Tools.col_patent_count := 0 |};
    {| Tools.col_paperid := "W2"; Tools.col_year := 2021;
       Tools.col_cited_by_count := 25; Tools.col_patent_count := 3 |};
    {| Tools.col_paperid := "W3"; Tools.col_year := 2021;
       Tools.col_cited_by_count := 7; Tools.col_patent_count := 0 |} ].

(** Stand-ins for the library functions of the handlers: [str.title]
    that leaves the text as it is, [int] on plain runs of digits, the
    classes that derive from [ValueError], the truth value of a float,
    and a client that rejects a message that is no string. *)
Definition title (s : string) : string := s.

Definition int_of_digits (s : string) : option Z :=
  match Json.span_digits s with
  | (String c ds, EmptyString) => Some (Json.digits_value (String c ds))
  | _ => None
  end.

Definition derives_from_ValueError (cls : string) : bool :=
  String.eqb cls "ValueError" || String.eqb cls "JSONDecodeError".

Definition float_truthy (literal : string) : bool := true.

Definition reject (a : agent) (message : json) : outcome (option chat_result) :=
  Raised (Exn "BadRequestError" "messages.0.content: Input should be a valid string").


End Script.

(* ================================================================== *)
(** * Part II: properties *)
(* ================================================================== *)

(* ------------------------------------------------------------------ *)
(** ** Properties of the string operations *)
(* ------------------------------------------------------------------ *)

Section ReplaceFacts.

Import PyStr.

Lemma append_cons (c : ascii) (s t : string) :
  String c s +:+ t = String c (s +:+ t).
Proof. reflexivity. Qed.

Lemma append_nil (t : string) : EmptyString +:+ t = t.
Proof. reflexivity. Qed.

Lemma startswith_app (p s : string) : startswith p (p +:+ s) = true.
Proof.
  induction p as [|c p IH]; [reflexivity|].
  rewrite append_cons. cbn [startswith]. now rewrite Ascii.eqb_refl.
Qed.

Lemma startswith_split (p s : string) :
  startswith p s = true -> s = p +:+ drop (String.length p) s.
Proof.
  revert s; induction p as [|c p IH]; intros s H; simpl in *.
  - reflexivity.
  - destruct s as [|d s]; [discriminate|].
    apply andb_true_iff in H as [Hc Hp].
    apply Ascii.eqb_eq in Hc as ->. rewrite append_cons.
    f_equal. now apply IH.
Qed.

Lemma drop_length_le (n : nat) (s : string) :
  (String.length (drop n s) <= String.length s)%nat.
Proof.
  revert s; induction n as [|n IH]; intros [|c s]; simpl; try lia.
  specialize (IH s). lia.
Qed.

(** Passing over [k] characters is dropping them. *)
Lemma replace_from_skip (old new : string) (k : nat) (s : string) :
  replace_from old new k s = replace_from old new 0 (drop k s).
Proof.
  revert k; induction s as [|c s IH]; intros [|k]; try reflexivity.
  simpl replace_from at 1. simpl drop. apply IH.
Qed.

(** The scan, one occurrence or one character at a time. *)
Lemma replace_from_unfold (old new : string) (c : ascii) (s : string) :
  old <> EmptyString ->
  replace_from old new 0 (String c s) =
    if startswith old (String c s)
    then new +:+ replace_from old new 0 (drop (String.length old) (String c s))
    else String c (replace_from old new 0 s).
Proof.
  intros Hold. simpl replace_from.
  destruct (startswith old (String c s)); [|reflexivity].
  rewrite replace_from_skip. destruct old as [|o old]; [congruence|].
  simpl. now rewrite Nat.sub_0_r.
Qed.

(** Without an occurrence of [old] nothing is replaced. *)
Lemma replace_from_absent (old new s : string) :
  contains old s = false -> replace_from old new 0 s = s.
Proof.
  induction s as [|c s IH]; intros H; [reflexivity|].
  simpl in H. apply orb_false_iff in H as [Hp Hc].
  simpl replace_from. rewrite Hp. f_equal. now apply IH.
Qed.

Lemma replace_absent (old new s : string) :
  contains old s = false -> replace old new s = s.
Proof.
  destruct old as [|o old]; intros H.
  - exfalso. destruct s; simpl in H; discriminate.
  - now apply replace_from_absent.
Qed.

Lemma length_append (s t : string) :
  String.length (s +:+ t) = (String.length s + String.length t)%nat.
Proof.
  induction s as [|c s IH]; [reflexivity|].
  rewrite append_cons. cbn [String.length]. now rewrite IH.
Qed.

Lemma contains_nonempty_nil (old : string) :
  old <> EmptyString -> contains old EmptyString = false.
Proof. now destruct old. Qed.

(** A replacement by a longer string never shortens the text, and
    lengthens it as soon as there is one occurrence. *)
Lemma replace_from_grows (old new : string) :
  old <> EmptyString ->
  (String.length old < String.length new)%nat ->
  forall (n : nat) (s : string),
    (String.length s <= n)%nat ->
    (String.length s <= String.length (replace_from old new 0 s))%nat /\
    (contains old s = true ->
     (String.length s < String.length (replace_from old new 0 s))%nat).
Proof.
  intros Hold Hlen. induction n as [|n IH]; intros s Hs.
  - destruct s; [|simpl in Hs; lia].
    split; [reflexivity|]. now rewrite contains_nonempty_nil.
  - destruct s as [|c s].
    + split; [reflexivity|]. now rewrite contains_nonempty_nil.
    + rewrite replace_from_unfold by assumption.
      cbn [contains]. destruct (startswith old (String c s)) eqn:Hp.
      * pose proof (startswith_split _ _ Hp) as Hsplit.
        pose proof (drop_length_le (String.length old) (String c s)) as Hd.
        assert (Hlt : (String.length (drop (String.length old) (String c s))
                       <= n)%nat).
        { apply (f_equal String.length) in Hsplit.
          rewrite length_append in Hsplit.
          destruct old; [congruence|]. simpl in Hsplit, Hs |- *. lia. }
        destruct (IH _ Hlt) as [IH1 _].
        apply (f_equal String.length) in Hsplit.
        rewrite length_append in Hsplit. rewrite length_append.
        split; [lia | intros _; lia].
      * cbn [String.length] in Hs.
        destruct (IH s ltac:(lia)) as [IH1 IH2].
        cbn [orb String.length]. split; [lia|].
        intros Hc. specialize (IH2 Hc). lia.
Qed.

Lemma replace_length_le (old new s : string) :
  old <> EmptyString ->
  (String.length old < String.length new)%nat ->
  (String.length s <= String.length (replace old new s))%nat.
Proof.
  intros Hold Hlen. destruct old as [|o old]; [congruence|].
  now apply (replace_from_grows _ _ Hold Hlen (String.length s) s).
Qed.

Lemma replace_length_lt (old new s : string) :
  old <> EmptyString ->
  (String.length old < String.length new)%nat ->
  contains old s = true ->
  (String.length s < String.length (replace old new s))%nat.
Proof.
  intros Hold Hlen Hc. destruct old as [|o old]; [congruence|].
  now apply (replace_from_grows _ _ Hold Hlen (String.length s) s).
Qed.

Lemma startswith_app_l (p s t : string) :
  startswith p s = true -> startswith p (s +:+ t) = true.
Proof.
  revert s; induction p as [|c p IH]; intros s H; [reflexivity|].
  destruct s as [|d s]; [discriminate|].
  rewrite append_cons. cbn [startswith] in *.
  apply andb_true_iff in H as [-> Hp]. now rewrite IH.
Qed.

Lemma contains_cons (p : string) (c : ascii) (s : string) :
  contains p s = true -> contains p (String c s) = true.
Proof. intros H. cbn [contains]. rewrite H. apply orb_true_r. Qed.

Lemma contains_app_r (p s t : string) :
  contains p t = true -> contains p (s +:+ t) = true.
Proof.
  intros H. induction s as [|c s IH]; [exact H|].
  rewrite append_cons. now apply contains_cons.
Qed.

(** The replacement of [old] by a string that starts with [old] keeps
    an occurrence of [old]. *)
Lemma contains_replace_self (old new s : string) :
  old <> EmptyString ->
  startswith old new = true ->
  contains old s = true ->
  contains old (replace_from old new 0 s) = true.
Proof.
  intros Hold Hnew. induction s as [|c s IH]; intros Hc.
  - now rewrite contains_nonempty_nil in Hc.
  - rewrite replace_from_unfold by assumption.
    cbn [contains] in Hc.
    destruct (startswith old (String c s)) eqn:Hp.
    + destruct new as [|d new]; [now destruct old|].
      rewrite append_cons. cbn [contains].
      rewrite <- append_cons, (startswith_app_l _ _ _ Hnew). reflexivity.
    + apply contains_cons, IH. exact Hc.
Qed.

Ltac head_compute :=
  rewrite ?append_cons, ?append_nil;
  cbn [startswith contains Ascii.eqb Bool.eqb andb orb].
Ltac head_compute_in H :=
  rewrite ?append_cons, ?append_nil in H;
  cbn [startswith contains Ascii.eqb Bool.eqb andb orb] in H.

Ltac survive_tac p old :=
  let n := fresh "n" in let IH := fresh "IH" in
  let s := fresh "s" in let Hn := fresh "Hn" in let Hc := fresh "Hc" in
  let Hp := fresh "Hp" in let Hq := fresh "Hq" in let c := fresh "c" in
  intros n; induction n as [|n IH]; intros s Hn Hc;
  [ destruct s; [discriminate | simpl in Hn; lia] | ];
  destruct s as [|c s]; [discriminate|];
  rewrite replace_from_unfold by discriminate;
  destruct (startswith old (String c s)) eqn:Hp;
  [ apply startswith_split in Hp;
    rewrite Hp in Hc;
    apply (f_equal String.length) in Hp; rewrite length_append in Hp;
    head_compute; head_compute_in Hc;
    apply IH; [simpl in Hp, Hn |- *; lia | exact Hc]
  | cbn [contains] in Hc;
    destruct (startswith p (String c s)) eqn:Hq;
    [ apply startswith_split in Hq; 
      rewrite append_cons in Hq; injection Hq as -> ->; 
      cbn [String.length drop];
      rewrite ?append_cons, ?append_nil;
      repeat (rewrite replace_from_unfold by discriminate;
              cbn [startswith Ascii.eqb Bool.eqb andb]);
      reflexivity
    | apply contains_cons, IH; [simpl in Hn; lia | exact Hc] ] ].

Lemma contains_int_replace_str :
  forall (n : nat) (s : string),
    (String.length s <= n)%nat ->
    contains "int" s = true ->
    contains "int" (replace_from "str" "string" 0 s) = true.
Proof. survive_tac "int" "str". Qed.

Lemma contains_int_replace_bool :
  forall (n : nat) (s : string),
    (String.length s <= n)%nat ->
    contains "int" s = true ->
    contains "int" (replace_from "bool" "boolean" 0 s) = true.
Proof. survive_tac "int" "bool". Qed.

Lemma contains_str_replace_bool :
  forall (n : nat) (s : string),
    (String.length s <= n)%nat ->
    contains "str" s = true ->
    contains "str" (replace_from "bool" "boolean" 0 s) = true.
Proof. survive_tac "str" "bool". Qed.

End ReplaceFacts.

(* ------------------------------------------------------------------ *)
(** ** Type normalization *)
(* ------------------------------------------------------------------ *)

Section Normalization.

Import PyStr.

Lemma plain_type_spec (t : string) :
  plain_type t = true <->
  contains "int" t = false /\ contains "str" t = false /\
  contains "bool" t = false.
Proof.
  unfold plain_type. rewrite !andb_true_iff, !negb_true_iff. tauto.
Qed.

(** A type string that mentions none of the three names is left alone. *)
Lemma normalize_type_plain (t : string) :
  plain_type t = true -> normalize_type t = t.
Proof.
  rewrite plain_type_spec. intros (Hi & Hs & Hb). unfold normalize_type.
  rewrite (replace_absent "int") by assumption.
  rewrite (replace_absent "str") by assumption.
  now rewrite (replace_absent "bool").
Qed.

(** Normalization never shortens, and lengthens every type string that
    mentions one of the three names. *)
Lemma normalize_type_length_le (t : string) :
  (String.length t <= String.length (normalize_type t))%nat.
Proof.
  unfold normalize_type.
  pose proof (replace_length_le "int" "integer" t
                ltac:(discriminate) ltac:(simpl; lia)) as H1.
  pose proof (replace_length_le "str" "string"
                (replace "int" "integer" t)
                ltac:(discriminate) ltac:(simpl; lia)) as H2.
  pose proof (replace_length_le "bool" "boolean"
                (replace "str" "string" (replace "int" "integer" t))
                ltac:(discriminate) ltac:(simpl; lia)) as H3.
  lia.
Qed.

Lemma normalize_type_length_lt (t : string) :
  plain_type t = false ->
  (String.length t < String.length (normalize_type t))%nat.
Proof.
  intros Hp. unfold normalize_type.
  pose proof (replace_length_le "int" "integer" t
                ltac:(discriminate) ltac:(simpl; lia)) as H1.
  pose proof (replace_length_le "str" "string"
                (replace "int" "integer" t)
                ltac:(discriminate) ltac:(simpl; lia)) as H2.
  pose proof (replace_length_le "bool" "boolean"
                (replace "str" "string" (replace "int" "integer" t))
                ltac:(discriminate) ltac:(simpl; lia)) as H3.
  destruct (contains "int" t) eqn:Hi.
  { pose proof (replace_length_lt "int" "integer" t
                  ltac:(discriminate) ltac:(simpl; lia) Hi). lia. }
  rewrite (replace_absent "int" "integer" t Hi) in *.
  destruct (contains "str" t) eqn:Hs.
  { pose proof (replace_length_lt "str" "string" t
                  ltac:(discriminate) ltac:(simpl; lia) Hs). lia. }
  rewrite (replace_absent "str" "string" t Hs) in *.
  destruct (contains "bool" t) eqn:Hb.
  { pose proof (replace_length_lt "bool" "boolean" t
                  ltac:(discriminate) ltac:(simpl; lia) Hb). lia. }
  unfold plain_type in Hp. rewrite Hi, Hs, Hb in Hp. discriminate.
Qed.

(** A type string that mentions one of the names still does after
    normalization: each replacement starts with the name it replaces,
    and the later replacements do not touch the earlier names. *)
Lemma normalize_type_not_plain (t : string) :
  plain_type t = false -> plain_type (normalize_type t) = false.
Proof.
  intros Hp. unfold normalize_type, plain_type.
  change (replace "int" "integer" t)
    with (replace_from "int" "integer" 0 t).
  change (replace "str" "string" ?x)
    with (replace_from "str" "string" 0 x).
  change (replace "bool" "boolean" ?x)
    with (replace_from "bool" "boolean" 0 x).
  destruct (contains "int" t) eqn:Hi.
  { rewrite (contains_int_replace_bool _ _ (Nat.le_refl _)); [reflexivity|].
    apply (contains_int_replace_str _ _ (Nat.le_refl _)).
    now apply contains_replace_self. }
  rewrite (replace_from_absent "int" "integer" t Hi).
  destruct (contains "str" t) eqn:Hs.
  { rewrite (contains_str_replace_bool _ _ (Nat.le_refl _));
      [now rewrite andb_false_r|].
    now apply contains_replace_self. }
  rewrite (replace_from_absent "str" "string" t Hs).
  destruct (contains "bool" t) eqn:Hb.
  { rewrite (contains_replace_self "bool" "boolean") by easy.
    now rewrite andb_false_r. }
  unfold plain_type in Hp. rewrite Hi, Hs, Hb in Hp. discriminate.
Qed.

(** The fixed points of the normalization are exactly the plain types. *)
Lemma normalize_type_fixed_iff (t : string) :
  normalize_type t = t <-> plain_type t = true.
Proof.
  split; [|apply normalize_type_plain].
  intros Heq. destruct (plain_type t) eqn:Hp; [reflexivity|].
  pose proof (normalize_type_length_lt t Hp) as Hlt.
  rewrite Heq in Hlt. lia.
Qed.

(** The three internal types of the table. *)
Lemma normalize_type_table :
  normalize_type "int" = "integer" /\
  normalize_type "str" = "string" /\
  normalize_type "bool" = "boolean".
Proof. repeat split; reflexivity. Qed.

(** C2, as stated, fails: ["integer"] is none of the three internal type
    names, and it is not returned unchanged. *)
Lemma normalize_type_changes_integer :
  "integer" <> "int" /\ "integer" <> "str" /\ "integer" <> "bool" /\
  normalize_type "integer" = "integereger" /\
  normalize_type "integer" <> "integer".
Proof. repeat split; (reflexivity || discriminate). Qed.

(** C2, amended: the normalization maps ['int'], ['str'] and ['bool'] to
    ['integer'], ['string'] and ['boolean'], and it returns a type string
    unchanged exactly when the string contains none of ['int'], ['str']
    and ['bool'] as a substring. *)
Theorem normalize_type_passthrough :
  (normalize_type "int" = "integer" /\
   normalize_type "str" = "string" /\
   normalize_type "bool" = "boolean") /\
  forall t : string, normalize_type t = t <-> plain_type t = true.
Proof. split; [exact normalize_type_table | exact normalize_type_fixed_iff]. Qed.

(** C3, as stated, fails: the normalized form of ['int'] is changed by a
    second normalization, and so are the three external names. *)
Lemma normalize_type_not_idempotent :
  normalize_type (normalize_type "int") <> normalize_type "int" /\
  normalize_type "integer" = "integereger" /\
  normalize_type "string" = "stringing" /\
  normalize_type "boolean" = "booleanean".
Proof. repeat split; (reflexivity || discriminate). Qed.

(** C3, amended: a second normalization returns the normalized type
    string unchanged exactly for the type strings that contain none of
    ['int'], ['str'] and ['bool'], on which the first normalization is
    already the identity. *)
Theorem normalize_type_idempotent_iff (t : string) :
  normalize_type (normalize_type t) = normalize_type t <->
  plain_type t = true.
Proof.
  rewrite normalize_type_fixed_iff. split; intros H.
  - destruct (plain_type t) eqn:Hp; [reflexivity|].
    now rewrite (normalize_type_not_plain t Hp) in H.
  - now rewrite (normalize_type_plain t H).
Qed.

End Normalization.

(* ------------------------------------------------------------------ *)
(** ** The required list of a derived schema *)
(* ------------------------------------------------------------------ *)

Section Registry.

Lemma is_required_spec (info : param_info) :
  is_required info = true <->
  p_optional info <> Some true /\ p_default info = None.
Proof.
  unfold is_required.
  destruct (p_optional info) as [[|]|], (p_default info); simpl;
    split; try discriminate; try (intros [? ?]; congruence);
    intros _; split; congruence.
Qed.

(** The loop appends the names of the required parameters, in order. *)
Lemma required_fold (params : list (string * param_info)) (s : input_schema) :
  required (fold_left add_parameter params s) =
  required s ++ map fst (List.filter (fun p => is_required (snd p)) params).
Proof.
  revert s; induction params as [|[name info] params IH]; intros s; simpl.
  - now rewrite app_nil_r.
  - rewrite IH. simpl. destruct (is_required info); simpl.
    + now rewrite <- app_assoc.
    + reflexivity.
Qed.

(** The schema type is never touched. *)
Lemma schema_type_fold (params : list (string * param_info)) (s : input_schema) :
  schema_type (fold_left add_parameter params s) = schema_type s.
Proof.
  revert s; induction params as [|[name info] params IH]; intros s; simpl;
    [reflexivity|]. now rewrite IH.
Qed.

(** C1: for every tool description, the required list of the derived
    schema is the list of the names of the parameters whose entry neither
    sets [optional] to true nor has a [default], each parameter being
    judged on its own entry: a name is in the list exactly when one of
    its entries is of that kind. *)
Theorem required_exactly_mandatory (name : string) (info : tool_description) :
  let params := default [] (td_parameters info) in
  let schema := ts_input_schema (tool_for_api (name, info)) in
  required schema = map fst (List.filter (fun p => is_required (snd p)) params) /\
  forall param_name : string,
    In param_name (required schema) <->
    exists entry : param_info,
      In (param_name, entry) params /\
      p_optional entry <> Some true /\ p_default entry = None.
Proof.
  intros params schema.
  assert (Heq : required schema =
                map fst (List.filter (fun p => is_required (snd p)) params)).
  { unfold schema, tool_for_api. simpl. now rewrite required_fold. }
  split; [exact Heq|]. intros param_name. rewrite Heq, in_map_iff. split.
  - intros [[n entry] [Hn Hin]]. simpl in Hn. subst n.
    apply filter_In in Hin as [Hin Hreq]. simpl in Hreq.
    exists entry. split; [exact Hin | now apply is_required_spec].
  - intros (entry & Hin & Hopt & Hdef). exists (param_name, entry).
    split; [reflexivity|]. apply filter_In. split; [exact Hin|].
    simpl. now apply is_required_spec.
Qed.

(** In the table of the source every parameter is optional or has a
    default: no tool has a required parameter. *)
Example required_of_table :
  map (fun t => required (ts_input_schema t))
    (_get_tools_for_api TOOL_DESCRIPTIONS) = [[]; []; []; []; []; []].
Proof. reflexivity. Qed.

Example types_of_query_papers_with_filters :
  map (fun p => (fst p, prop_type (snd p)))
    (properties (ts_input_schema
       (nth 3 (_get_tools_for_api TOOL_DESCRIPTIONS)
          (tool_for_api ("", {| td_name := ""; td_description := "";
                                td_parameters := None |}))))) =
  [("year", "integer"); ("min_citations", "integer");
   ("has_patents", "boolean"); ("limit", "integer")].
Proof. reflexivity. Qed.

End Registry.

(* ------------------------------------------------------------------ *)
(** ** Construction of the agent *)
(* ------------------------------------------------------------------ *)

Section Construction.

Import SciSciNetAgent.

Lemma truthy_spec (v : option string) :
  truthy v = true <-> exists s, v = Some s /\ s <> EmptyString.
Proof.
  destruct v as [[|c s]|]; simpl; split; try discriminate.
  - intros (s & [= <-] & Hs). congruence.
  - intros _. eexists. split; [reflexivity | discriminate].
  - intros _. reflexivity.
  - intros (s & Hs & _). discriminate.
Qed.

(** The constructor raises exactly when neither the argument nor the
    environment gives a non-empty key. *)
Lemma init_raises_iff (getenv : string -> option string) (key : option string) :
  is_raised (__init__ getenv key) = true <->
  truthy key = false /\ truthy (getenv "ANTHROPIC_API_KEY") = false.
Proof.
  unfold __init__, py_or.
  destruct (truthy key) eqn:Hk; simpl.
  - rewrite Hk. simpl. split; [discriminate | intros [? _]; discriminate].
  - destruct (truthy (getenv "ANTHROPIC_API_KEY")); simpl; split;
      try discriminate; try tauto. intros [_ ?]; discriminate.
Qed.

(** An agent that was constructed holds a non-empty key. *)
Lemma init_returns_key (getenv : string -> option string)
    (key : option string) (a : agent) :
  __init__ getenv key = Returned a -> api_key a <> EmptyString.
Proof.
  unfold __init__. destruct (truthy (py_or _ _)) eqn:Ht; simpl; [|discriminate].
  intros [= <-]. simpl. apply truthy_spec in Ht as (s & -> & Hs). exact Hs.
Qed.

End Construction.

(* ------------------------------------------------------------------ *)
(** ** Tool execution *)
(* ------------------------------------------------------------------ *)

Section Execution.

Import SciSciNetAgent.

Variable TOOLS : gmap string (json -> outcome json).

(** [_execute_tool] always returns, and what it returns is [tool_value]. *)
Lemma execute_tool_value (name : string) (args : json) :
  _execute_tool TOOLS name args = Returned (tool_value TOOLS name args).
Proof.
  unfold _execute_tool, tool_value.
  destruct (TOOLS !! name) as [f|]; [|reflexivity].
  now destruct (f args).
Qed.

Lemma execute_tool_never_raises (name : string) (args : json) :
  is_raised (_execute_tool TOOLS name args) = false.
Proof. now rewrite execute_tool_value. Qed.

(** On success the result of the tool is returned as it is. *)
Lemma execute_tool_success (name : string) (f : json -> outcome json)
    (args r : json) :
  TOOLS !! name = Some f -> f args = Returned r ->
  _execute_tool TOOLS name args = Returned r.
Proof. intros Hf Hr. unfold _execute_tool. now rewrite Hf, Hr. Qed.

(** C4: for a name that is not in the dispatch table, whatever the
    arguments, [_execute_tool] returns the error payload whose message
    names the tool; it does not raise. *)
Theorem execute_unknown_tool (name : string) (args : json) :
  TOOLS !! name = None ->
  _execute_tool TOOLS name args =
    Returned (error_result ("Unknown tool: " +:+ name)).
Proof. intros H. unfold _execute_tool. now rewrite H. Qed.

(** C5: when the function registered under the name raises, the fault is
    caught: [_execute_tool] returns the error payload, of the same shape
    as for an unknown tool, whose message is [str(e)] of the fault. *)
Theorem execute_tool_fault_caught (name : string)
    (f : json -> outcome json) (args : json) (e : exn) :
  TOOLS !! name = Some f -> f args = Raised e ->
  _execute_tool TOOLS name args = Returned (error_result (exn_str e)).
Proof. intros Hf He. unfold _execute_tool. now rewrite Hf, He. Qed.

End Execution.

Lemma execute_unknown_tool_witness :
  Script.tools !! "papers-by-year" = None /\
  SciSciNetAgent._execute_tool Script.tools "papers-by-year" Script.year_args =
    Returned (JObj [("error", JStr "Unknown tool: papers-by-year")]).
Proof.
  split; [reflexivity|].
  apply (execute_unknown_tool Script.tools "papers-by-year" Script.year_args).
  reflexivity.
Defined.

Lemma execute_tool_fault_caught_witness :
  SciSciNetAgent._execute_tool Script.tools "query_top_authors" (JObj []) =
    Returned (JObj [("error", JStr "'h_index'")]).
Proof.
  apply (execute_tool_fault_caught Script.tools "query_top_authors"
           (fun _ => Raised (Exn "KeyError" "'h_index'")) (JObj [])
           (Exn "KeyError" "'h_index'")); reflexivity.
Defined.

(** The six names of the table are registered. *)
Example TOOLS_names (f1 f2 f3 f4 f5 f6 : json -> outcome json) :
  map (fun n => bool_decide (is_Some (TOOLS f1 f2 f3 f4 f5 f6 !! n)))
    ["query_papers_by_year"; "query_top_authors"; "query_citation_stats";
     "query_papers_with_filters"; "query_collaboration_stats";
     "query_yearly_trend"; "papers-by-year"] =
  [true; true; true; true; true; true; false].
Proof. vm_compute. reflexivity. Qed.

(* ------------------------------------------------------------------ *)
(** ** The tool loop *)
(* ------------------------------------------------------------------ *)

Section Orchestrator.

Import SciSciNetAgent.

Variable TOOLS : gmap string (json -> outcome json).
Variable create : request -> outcome response.
Variable json_loads : string -> outcome json.
Variable json_dumps : json -> string.

(** The inner loop appends one record and one tool result per tool-use
    block, in order, and nothing for the other blocks. *)
Lemma execute_tool_uses_spec (tool_uses : list block)
    (collected : list call_record) (results : list tool_result) :
  execute_tool_uses TOOLS json_dumps tool_uses collected results =
    Returned (collected ++ flat_map (records_of TOOLS) tool_uses,
              results ++ flat_map (results_of TOOLS json_dumps) tool_uses).
Proof.
  revert collected results.
  induction tool_uses as [|b bs IH]; intros collected results; simpl.
  - now rewrite !app_nil_r.
  - destruct b as [t|id name input|]; simpl; try apply IH.
    rewrite execute_tool_value. simpl. rewrite IH.
    now rewrite <- !app_assoc.
Qed.

Lemma flat_map_tool_uses {A : Type} (f : block -> list A) (bs : list block) :
  (forall b, is_tool_use b = false -> f b = []) ->
  flat_map f (List.filter is_tool_use bs) = flat_map f bs.
Proof.
  intros Hf. induction bs as [|b bs IH]; simpl; [reflexivity|].
  destruct (is_tool_use b) eqn:Hb; simpl.
  - now rewrite IH.
  - now rewrite (Hf b Hb).
Qed.

Lemma flat_map_tool_uses_length {A : Type} (f : block -> list A)
    (bs : list block) :
  (forall b, length (f b) = if is_tool_use b then 1 else 0)%nat ->
  length (flat_map f bs) = length (List.filter is_tool_use bs).
Proof.
  intros Hf. induction bs as [|b bs IH]; simpl; [reflexivity|].
  rewrite length_app, Hf, IH. now destruct (is_tool_use b).
Qed.

Lemma records_of_length (bs : list block) :
  length (flat_map (records_of TOOLS) bs) =
  length (List.filter is_tool_use bs).
Proof. apply flat_map_tool_uses_length. now intros []. Qed.

Lemma results_of_length (bs : list block) :
  length (flat_map (results_of TOOLS json_dumps) bs) =
  length (List.filter is_tool_use bs).
Proof. apply flat_map_tool_uses_length. now intros []. Qed.

Lemma results_of_ids (bs : list block) :
  map tool_use_id (flat_map (results_of TOOLS json_dumps) bs) = call_ids bs.
Proof.
  induction bs as [|b bs IH]; simpl; [reflexivity|].
  rewrite map_app, IH. now destruct b.
Qed.

(** One turn of the loop always comes back, with the two messages and
    the records appended. *)
Lemma tool_round_spec (messages : list message)
    (collected : list call_record) (reply : response) :
  tool_round TOOLS json_dumps messages collected reply =
    Returned
      (messages ++
         [ {| role := "assistant"; content := Blocks (resp_content reply) |};
           {| role := "user";
              content := ToolResults
                (flat_map (results_of TOOLS json_dumps) (resp_content reply)) |} ],
       collected ++ flat_map (records_of TOOLS) (resp_content reply)).
Proof.
  unfold tool_round. rewrite execute_tool_uses_spec. simpl.
  rewrite !flat_map_tool_uses; [reflexivity | now intros [] | now intros []].
Qed.

(** C8: for a reply whose stop reason is ["tool_use"] and that holds [n]
    tool-use blocks, one turn of the loop appends exactly [n] records to
    [collected_data] (one per block, with its tool name, its arguments
    and what [_execute_tool] returned, error payload or not), appends to
    the history the reply and exactly one user message that holds the [n]
    tool results, tagged with the call ids in order, and only then sends
    the next request, with that history. *)
Theorem tool_round_records (fuel : nat) (self : agent)
    (tools : list tool_schema) (messages : list message)
    (collected : list call_record) (reply : response) :
  stop_reason reply = "tool_use" ->
  let n := length (List.filter is_tool_use (resp_content reply)) in
  let records := flat_map (records_of TOOLS) (resp_content reply) in
  let results := flat_map (results_of TOOLS json_dumps) (resp_content reply) in
  let messages' :=
    messages ++
      [ {| role := "assistant"; content := Blocks (resp_content reply) |};
        {| role := "user"; content := ToolResults results |} ] in
  length records = n /\
  length results = n /\
  map tool_use_id results = call_ids (resp_content reply) /\
  tool_round TOOLS json_dumps messages collected reply =
    Returned (messages', collected ++ records) /\
  tool_loop TOOLS create json_dumps (S fuel) self tools messages collected reply =
    (reply' ← create (make_request self tools messages');
     tool_loop TOOLS create json_dumps fuel self tools messages'
       (collected ++ records) reply').
Proof.
  intros Hstop n records results messages'.
  split; [apply records_of_length|].
  split; [apply results_of_length|].
  split; [apply results_of_ids|].
  split; [apply tool_round_spec|].
  simpl tool_loop. rewrite Hstop. simpl. now rewrite tool_round_spec.
Qed.

(** A reply with another stop reason ends the loop at once. *)
Lemma tool_loop_final (fuel : nat) (self : agent) (tools : list tool_schema)
    (messages : list message) (collected : list call_record)
    (reply : response) :
  stop_reason reply <> "tool_use" ->
  tool_loop TOOLS create json_dumps fuel self tools messages collected reply =
    Returned (Some (reply, collected)).
Proof.
  intros Hstop. apply String.eqb_neq in Hstop.
  destruct fuel; simpl; now rewrite Hstop.
Qed.

(** When the first reply is already final, [chat] makes no tool call: the
    text is the concatenation of the text blocks of the reply, the trace
    is empty, and the specification is what the extraction finds in the
    text. *)
Lemma chat_final_answer (fuel : nat) (self : agent) (user_message : string)
    (reply : response) :
  create (make_request self (_get_tools_for_api TOOL_DESCRIPTIONS)
            [ {| role := "user"; content := Text user_message |} ]) =
    Returned reply ->
  stop_reason reply <> "tool_use" ->
  chat TOOLS create json_loads json_dumps fuel self user_message =
    (vega ← extract_vega_lite json_loads (text_of (resp_content reply));
     Returned (Some {| text := text_of (resp_content reply);
                       vega_lite := vega;
                       data := [] |})).
Proof.
  intros Hcreate Hstop. unfold chat. rewrite Hcreate. simpl.
  now rewrite tool_loop_final.
Qed.

(** Nothing in the loop or in [chat] reads the key of the agent. *)
Lemma tool_loop_ignores_api_key (key : string) (fuel : nat) (self : agent)
    (tools : list tool_schema) (messages : list message)
    (collected : list call_record) (reply : response) :
  tool_loop TOOLS create json_dumps fuel (with_api_key key self) tools
    messages collected reply =
  tool_loop TOOLS create json_dumps fuel self tools messages collected reply.
Proof.
  revert messages collected reply.
  induction fuel as [|fuel IH]; intros messages collected reply; simpl;
    [reflexivity|].
  destruct (String.eqb _ _); [|reflexivity].
  destruct (tool_round _ _ _ _ _) as [[messages' collected']|e]; simpl;
    [|reflexivity].
  change (make_request (with_api_key key self) tools messages')
    with (make_request self tools messages').
  destruct (create _) as [reply'|e]; simpl; [apply IH | reflexivity].
Qed.

Lemma chat_ignores_api_key (key : string) (fuel : nat) (self : agent)
    (user_message : string) :
  chat TOOLS create json_loads json_dumps fuel (with_api_key key self)
    user_message =
  chat TOOLS create json_loads json_dumps fuel self user_message.
Proof.
  unfold chat.
  change (make_request (with_api_key key self) ?t ?m)
    with (make_request self t m).
  destruct (create _) as [reply|e]; simpl; [|reflexivity].
  now rewrite tool_loop_ignores_api_key.
Qed.

End Orchestrator.

(** C9: without a key, neither passed nor in the environment, the
    constructor raises the [ValueError] of the missing key; a constructed
    agent holds a non-empty key; and the outcome of [chat] does not
    depend on the key of the agent, which it never reads. *)
Theorem init_fails_without_key :
  (forall getenv : string -> option string,
     getenv "ANTHROPIC_API_KEY" = None ->
     SciSciNetAgent.__init__ getenv None =
       Raised (Exn "ValueError" "ANTHROPIC_API_KEY not found")) /\
  (forall (getenv : string -> option string) (key : option string) (a : agent),
     SciSciNetAgent.__init__ getenv key = Returned a ->
     api_key a <> EmptyString) /\
  (forall TOOLS create json_loads json_dumps fuel key self user_message,
     SciSciNetAgent.chat TOOLS create json_loads json_dumps fuel
       (with_api_key key self) user_message =
     SciSciNetAgent.chat TOOLS create json_loads json_dumps fuel
       self user_message).
Proof.
  split; [|split].
  - intros getenv Henv. unfold SciSciNetAgent.__init__. now rewrite Henv.
  - exact init_returns_key.
  - intros. apply chat_ignores_api_key.
Qed.

Lemma init_fails_without_key_witness :
  SciSciNetAgent.__init__ (fun _ => None) None =
    Raised (Exn "ValueError" "ANTHROPIC_API_KEY not found").
Proof.
  apply (proj1 init_fails_without_key (fun _ => None)). reflexivity.
Defined.

Lemma tool_round_records_witness :
  length (flat_map (SciSciNetAgent.records_of Script.tools)
            (resp_content Script.two_tools)) = 2%nat /\
  SciSciNetAgent.tool_round Script.tools Script.dumps
    [ {| role := "user"; content := Text "How many papers?" |} ] []
    Script.two_tools =
  Returned
    ([ {| role := "user"; content := Text "How many papers?" |};
       {| role := "assistant";
          content := Blocks (resp_content Script.two_tools) |};
       {| role := "user";
          content := ToolResults
            [ {| tr_type := "tool_result"; tool_use_id := "call_1";
                 tr_content := "list" |};
              {| tr_type := "tool_result"; tool_use_id := "call_2";
                 tr_content := "dict" |} ] |} ],
     [ {| tool := "query_papers_by_year"; args := Script.year_args;
          result := Script.rows |};
       {| tool := "papers-by-year"; args := Script.year_args;
          result := JObj [("error", JStr "Unknown tool: papers-by-year")] |} ]).
Proof.
  pose proof (tool_round_records Script.tools Script.service Script.dumps
                0 Script.the_agent []
                [ {| role := "user"; content := Text "How many papers?" |} ] []
                Script.two_tools eq_refl) as (Hn & _ & _ & Hround & _).
  split; [exact Hn | exact Hround].
Defined.

(** The scripted conversation of the system description: two tools asked
    for in one reply give two records, and the chart of the final answer
    is found. *)
Example chat_two_tools :
  SciSciNetAgent.chat Script.tools Script.service Json.loads Script.dumps 3
    Script.the_agent "How many papers from 2020 to 2024?" =
  Returned (Some
    {| text := Script.answer_text;
       vega_lite := Some
         (JObj [ ("data",
                  JObj [("values",
                         JArr [JObj [("year", JInt 2020); ("n", JInt 12)]])]);
                 ("mark", JStr "bar") ]);
       data :=
         [ {| tool := "query_papers_by_year"; args := Script.year_args;
              result := Script.rows |};
           {| tool := "papers-by-year"; args := Script.year_args;
              result :=
                JObj [("error", JStr "Unknown tool: papers-by-year")] |} ] |}).
Proof. vm_compute. reflexivity. Qed.

(* ------------------------------------------------------------------ *)
(** ** The filters of [query_papers_with_filters] *)
(* ------------------------------------------------------------------ *)

Section Filters.

Import Tools.

Variable sort_by_citations_desc : list paper -> list paper.

#[local] Abbreviation query :=
  (query_papers_with_filters sort_by_citations_desc).

Lemma filter_comm {A : Type} (f g : A -> bool) (l : list A) :
  List.filter f (List.filter g l) = List.filter g (List.filter f l).
Proof.
  induction l as [|x l IH]; simpl; [reflexivity|].
  destruct (f x) eqn:Hf, (g x) eqn:Hg; simpl; rewrite ?Hf, ?Hg, IH;
    reflexivity.
Qed.

(** A year that is given filters the rows unless it is zero. *)
Lemma query_year (df : list paper) (y : Z) (min_citations : option Z)
    (has_patents : option bool) (limit : Z) :
  query df (Some y) min_citations has_patents limit =
  query (if (y =? 0)%Z then df
         else List.filter (fun p => (col_year p =? y)%Z) df)
    None min_citations has_patents limit.
Proof.
  unfold query_papers_with_filters. now destruct (y =? 0)%Z.
Qed.

(** A citation threshold that is given filters the rows unless it is
    zero. *)
Lemma query_min_citations (df : list paper) (year : option Z) (m : Z)
    (has_patents : option bool) (limit : Z) :
  query df year (Some m) has_patents limit =
  query (if (m =? 0)%Z then df
         else List.filter (fun p => (m <=? col_cited_by_count p)%Z) df)
    year None has_patents limit.
Proof.
  unfold query_papers_with_filters.
  destruct (m =? 0)%Z; simpl; [reflexivity|].
  destruct year as [y|]; [|reflexivity].
  destruct (negb (y =? 0)%Z); [|reflexivity].
  now rewrite (filter_comm (fun p => (m <=? col_cited_by_count p)%Z)
                 (fun p => (col_year p =? y)%Z) df).
Qed.

(** The patent flag filters the rows only when it is [True]. *)
Lemma query_has_patents (df : list paper) (year min_citations : option Z)
    (b : bool) (limit : Z) :
  query df year min_citations (Some b) limit =
  query (if b then List.filter (fun p => (0 <? col_patent_count p)%Z) df
         else df)
    year min_citations None limit.
Proof.
  unfold query_papers_with_filters. destruct b; [|reflexivity].
  f_equal. f_equal.
  destruct year as [y|], min_citations as [m|];
    repeat match goal with
           | |- context [negb (?z =? 0)%Z] => destruct (negb (z =? 0)%Z)
           end;
    try reflexivity.
  - rewrite (filter_comm (fun p => (0 <? col_patent_count p)%Z)
               (fun p => (m <=? col_cited_by_count p)%Z)).
    now rewrite (filter_comm (fun p => (0 <? col_patent_count p)%Z)
                   (fun p => (col_year p =? y)%Z) df).
  - apply filter_comm.
  - apply filter_comm.
  - apply filter_comm.
  - apply filter_comm.
Qed.

(** C10: [year=0] and [min_citations=0] behave as if the argument were
    left out, [has_patents=False] is the same as leaving it out, and
    [has_patents=True] is the query on the rows that have a patent
    count above zero. *)
Theorem filters_apply_only_when_truthy (df : list paper)
    (year min_citations : option Z) (has_patents : option bool) (limit : Z) :
  query df (Some 0%Z) min_citations has_patents limit =
    query df None min_citations has_patents limit /\
  query df year (Some 0%Z) has_patents limit =
    query df year None has_patents limit /\
  query df year min_citations (Some false) limit =
    query df year min_citations None limit /\
  query df year min_citations (Some true) limit =
    query (List.filter (fun p => (0 <? col_patent_count p)%Z) df)
      year min_citations None limit.
Proof.
  split; [apply (query_year df 0)|].
  split; [apply (query_min_citations df year 0)|].
  split; [apply (query_has_patents df year min_citations false)|].
  apply (query_has_patents df year min_citations true).
Qed.

Lemma In_take {A : Type} (x : A) (n : nat) (l : list A) :
  In x (take n l) -> In x l.
Proof.
  revert l; induction n as [|n IH]; intros [|y l]; simpl; try tauto.
  intros [->|H]; [now left | right; now apply IH].
Qed.

Lemma In_head {A : Type} (x : A) (n : Z) (l : list A) :
  In x (head n l) -> In x l.
Proof. unfold head. destruct (0 <=? n)%Z; apply In_take. Qed.

(** When the sort only reorders the rows, the rows returned are rows of
    the data frame. *)
Lemma query_rows (df : list paper) (year min_citations : option Z)
    (has_patents : option bool) (limit : Z) (p : paper) :
  (forall l x, In x (sort_by_citations_desc l) -> In x l) ->
  In p (query df year min_citations has_patents limit) -> In p df.
Proof.
  intros Hsort Hin. unfold query_papers_with_filters in Hin.
  apply In_head, Hsort in Hin.
  destruct has_patents as [[|]|], min_citations as [m|], year as [y|];
    repeat match type of Hin with
           | context [negb (?z =? 0)%Z] => destruct (negb (z =? 0)%Z)
           end;
    repeat (apply filter_In in Hin as [Hin _]); exact Hin.
Qed.

(** Then every row returned under [has_patents=True] has a patent count
    above zero. *)
Lemma query_has_patents_rows (df : list paper)
    (year min_citations : option Z) (limit : Z) (p : paper) :
  (forall l x, In x (sort_by_citations_desc l) -> In x l) ->
  In p (query df year min_citations (Some true) limit) ->
  (0 < col_patent_count p)%Z.
Proof.
  intros Hsort Hin. rewrite query_has_patents in Hin.
  apply (query_rows _ _ _ _ _ _ Hsort), filter_In in Hin as [_ Hin].
  now apply Z.ltb_lt.
Qed.

End Filters.

(* ------------------------------------------------------------------ *)
(** ** The fenced blocks of a text *)
(* ------------------------------------------------------------------ *)

Section Findall.

Import PyStr.

Lemma lstrip_from_length (toks : list string) (k : nat) (s : string) :
  (String.length (lstrip_from toks k s) <= String.length s)%nat.
Proof.
  revert k; induction s as [|c s IH]; intros k; simpl; [lia|].
  destruct k as [|k].
  - destruct (token_length toks (String c s)); simpl; [lia|].
    specialize (IH n). lia.
  - specialize (IH k). lia.
Qed.

Lemma split_first_length (sep s before after : string) :
  split_first sep s = Some (before, after) ->
  (String.length after <= String.length s)%nat.
Proof.
  revert before; induction s as [|c s IH]; intros before; simpl.
  - destruct (startswith sep EmptyString); [|discriminate].
    intros [= _ <-]. apply drop_length_le.
  - destruct (startswith sep (String c s)).
    + intros [= _ <-]. apply (drop_length_le _ (String c s)).
    + destruct (split_first sep s) as [[b a]|]; [|discriminate].
      intros [= _ <-]. specialize (IH b eq_refl). lia.
Qed.

(** What follows a match is shorter than the text the match started. *)
Lemma after_match_shorter (n : nat) (c : ascii) (s inner after : string) :
  split_first "```" (lstrip (drop (S n) (String c s))) = Some (inner, after) ->
  (String.length after <= String.length s)%nat.
Proof.
  intros H. apply split_first_length in H.
  pose proof (lstrip_from_length whitespace 0 (drop (S n) (String c s))) as H1.
  pose proof (drop_length_le n s) as H2.
  unfold lstrip in H. simpl drop in H, H1. lia.
Qed.

(** The matches do not depend on the fuel once it covers the text. *)
Lemma findall_from_enough (n : nat) :
  forall (s : string) (f1 f2 : nat),
    (String.length s <= n)%nat ->
    (String.length s <= f1)%nat -> (String.length s <= f2)%nat ->
    findall_from f1 s = findall_from f2 s.
Proof.
  induction n as [|n IH]; intros s f1 f2 Hn H1 H2.
  - destruct s; [|simpl in Hn; lia]. now destruct f1, f2.
  - destruct s as [|c s]; [now destruct f1, f2|].
    destruct f1 as [|f1]; [simpl in H1; lia|].
    destruct f2 as [|f2]; [simpl in H2; lia|].
    cbn [String.length] in Hn, H1, H2.
    cbn [findall_from]. destruct (opening_length (String c s)) as [|k].
    + apply IH; lia.
    + destruct (split_first _ _) as [[inner after]|] eqn:Hsplit.
      * apply after_match_shorter in Hsplit. f_equal. apply IH; lia.
      * apply IH; lia.
Qed.

(** The matches of a text, by the first character: without a match
    that starts there the search moves on; with one, the group is the
    text between the white space after the label and the next fence,
    and the search goes on after that fence. *)
Lemma findall_cons (c : ascii) (s : string) :
  findall (String c s) =
    match opening_length (String c s) with
    | O => findall s
    | S n =>
        match split_first "```" (lstrip (drop (S n) (String c s))) with
        | Some (inner, after) => inner :: findall after
        | None => findall s
        end
    end.
Proof.
  unfold findall. cbn [String.length findall_from].
  destruct (opening_length (String c s)) as [|k]; [reflexivity|].
  destruct (split_first _ _) as [[inner after]|] eqn:Hsplit; [|reflexivity].
  apply after_match_shorter in Hsplit. f_equal.
  apply (findall_from_enough (String.length s)); lia.
Qed.

(** Any fuel that covers the text gives the matches of the text. *)
Lemma findall_fuel_independent (fuel : nat) (s : string) :
  (String.length s <= fuel)%nat -> findall_from fuel s = findall s.
Proof.
  intros H. apply (findall_from_enough (String.length s)); lia.
Qed.

(** A text without a fence has no match. *)
Lemma findall_no_fence (s : string) :
  contains "```" s = false -> findall s = [].
Proof.
  induction s as [|c s IH]; intros H; [reflexivity|].
  rewrite findall_cons. cbn [contains] in H.
  apply orb_false_iff in H as [Hp Hc].
  assert (Ho : opening_length (String c s) = 0%nat).
  { unfold opening_length.
    destruct (startswith "```vega-lite" (String c s)) eqn:H1.
    - apply startswith_split in H1. rewrite H1 in Hp.
      rewrite !append_cons in Hp. cbn in Hp. discriminate.
    - destruct (startswith "```json" (String c s)) eqn:H2; [|reflexivity].
      apply startswith_split in H2. rewrite H2 in Hp.
      rewrite !append_cons in Hp. cbn in Hp. discriminate. }
  rewrite Ho. now apply IH.
Qed.

End Findall.

(* ------------------------------------------------------------------ *)
(** ** Extraction of the chart specification *)
(* ------------------------------------------------------------------ *)

Section Extraction.

Import SciSciNetAgent.

Variable json_loads : string -> outcome json.

(** On a dict whose ['$schema'] is a string or is missing, the test of
    the source is the disjunction of the two clauses. *)
Lemma accepts_dict (fields : list (string * json)) :
  match dict_get "$schema" fields with
  | Some (JStr _) | None => True
  | Some _ => False
  end ->
  accepts (JObj fields) = Returned (clause_a fields || clause_b fields).
Proof.
  unfold accepts, clause_a, clause_b, py_in, py_get, dict_has. simpl.
  destruct (dict_get "$schema" fields) as [[| | | |s| |]|]; simpl;
    try contradiction; intros _.
  - destruct (PyStr.contains "vega" s); simpl; [reflexivity|].
    destruct (dict_get "data" fields); simpl; [|reflexivity].
    destruct (dict_get "mark" fields); reflexivity.
  - destruct (dict_get "data" fields); simpl; [|reflexivity].
    destruct (dict_get "mark" fields); reflexivity.
Qed.

(** On regular candidates the loop of the source returns the first
    candidate that parses to a document which satisfies clause A or
    clause B, and [None] when there is none; the candidates that fail to
    parse are passed over. *)
Lemma first_accepted_regular (matches : list string) :
  Forall (regular json_loads) matches ->
  first_accepted json_loads matches = Returned (first_chart json_loads matches).
Proof.
  induction 1 as [|m rest Hm _ IH]; [reflexivity|].
  cbn [first_accepted first_chart]. unfold regular in Hm.
  destruct (json_loads (PyStr.strip m)) as [[| | | | | |fields]|e]; simpl;
    try contradiction.
  - rewrite (accepts_dict fields Hm). simpl.
    destruct (clause_a fields || clause_b fields); simpl; [reflexivity|].
    exact IH.
  - unfold try_except_class. simpl. rewrite Hm. simpl. exact IH.
Qed.

Lemma regularb_spec (m : string) :
  regularb json_loads m = true -> regular json_loads m.
Proof.
  unfold regularb, regular.
  destruct (json_loads (PyStr.strip m)) as [[| | | | | |fields]|e];
    try discriminate.
  - destruct (dict_get "$schema" fields) as [[]|]; simpl;
      (discriminate || (intros _; exact I)).
  - apply String.eqb_eq.
Qed.

Lemma Forall_regular (matches : list string) :
  forallb (regularb json_loads) matches = true ->
  Forall (regular json_loads) matches.
Proof.
  intros H. apply List.Forall_forall. intros m Hm.
  apply regularb_spec. rewrite forallb_forall in H. now apply H.
Qed.

Lemma extract_regular (text_response : string) :
  Forall (regular json_loads) (findall text_response) ->
  extract_vega_lite json_loads text_response =
    Returned (first_chart json_loads (findall text_response)).
Proof. apply first_accepted_regular. Qed.

(** A text without a fence yields no specification, whatever the
    reader. *)
Lemma extract_no_fence (text_response : string) :
  PyStr.contains "```" text_response = false ->
  extract_vega_lite json_loads text_response = Returned None.
Proof.
  intros H. unfold extract_vega_lite. now rewrite findall_no_fence.
Qed.

(** A candidate that parses to a value that is no container makes the
    loop raise a [TypeError], whatever follows it. *)
Lemma first_accepted_not_iterable (m : string) (rest : list string) (v : json) :
  json_loads (PyStr.strip m) = Returned v ->
  match v with
  | JNull | JBool _ | JInt _ | JFloat _ => True
  | _ => False
  end ->
  exists msg, first_accepted json_loads (m :: rest) = Raised (Exn "TypeError" msg).
Proof.
  intros Hv Hshape. cbn [first_accepted]. rewrite Hv.
  destruct v; try contradiction; simpl; eexists; reflexivity.
Qed.

End Extraction.

(** The examples of the system description: a malformed block before a
    block with [data] and [mark], and a text without a block. *)
Example extract_malformed_then_valid :
  SciSciNetAgent.extract_vega_lite Json.loads Script.malformed_then_valid =
  Returned (Some (JObj [ ("data", JObj [("values", JArr [])]);
                         ("mark", JStr "bar") ])).
Proof. vm_compute. reflexivity. Qed.

Example extract_no_block :
  SciSciNetAgent.extract_vega_lite Json.loads Script.no_block = Returned None.
Proof. vm_compute. reflexivity. Qed.

(** The candidates of the two texts below, and what the second
    candidate of [Script.number_then_valid] is worth: it parses to a
    document that satisfies clause B. *)
Example null_block_candidates :
  map PyStr.strip (findall Script.null_block) = ["null"].
Proof. vm_compute. reflexivity. Qed.

Example number_then_valid_candidates :
  map PyStr.strip (findall Script.number_then_valid) =
    [ "5"; Script.dq "{'data': {'values': []}, 'mark': 'bar'}" ] /\
  Json.loads (Script.dq "{'data': {'values': []}, 'mark': 'bar'}") =
    Returned (JObj [ ("data", JObj [("values", JArr [])]);
                     ("mark", JStr "bar") ]) /\
  SciSciNetAgent.clause_b
    [ ("data", JObj [("values", JArr [])]); ("mark", JStr "bar") ] = true.
Proof. vm_compute. repeat split. Qed.

(** C7: the extraction does raise on a candidate of an unexpected shape.
    The one block of [Script.null_block] holds the JSON document [null].
    With any reader that parses it to [None], as [json.loads] does, the
    membership test on the parsed value raises a [TypeError], which the
    handler of [JSONDecodeError] lets through. *)
Theorem extract_raises_on_null (json_loads : string -> outcome json) :
  json_loads "null" = Returned JNull ->
  SciSciNetAgent.extract_vega_lite json_loads Script.null_block =
    Raised (Exn "TypeError" "argument of type 'NoneType' is not iterable").
Proof.
  intros Hnull. unfold SciSciNetAgent.extract_vega_lite.
  replace (findall Script.null_block)
    with [Script.lines ["null"; EmptyString]] by (vm_compute; reflexivity).
  cbn [SciSciNetAgent.first_accepted].
  replace (PyStr.strip (Script.lines ["null"; EmptyString]))
    with "null" by (vm_compute; reflexivity).
  now rewrite Hnull.
Qed.

Lemma extract_raises_on_null_witness :
  SciSciNetAgent.extract_vega_lite Json.loads Script.null_block =
    Raised (Exn "TypeError" "argument of type 'NoneType' is not iterable").
Proof.
  apply (extract_raises_on_null Json.loads). vm_compute. reflexivity.
Defined.

(** C6: the first candidate that satisfies a clause is not always
    returned. In [Script.number_then_valid] the second block satisfies
    clause B and the first one, the JSON document [5], satisfies none.
    With any reader that parses the first block to the integer 5, as
    [json.loads] does, the extraction raises a [TypeError] on the first
    block and never reaches the second. *)
Theorem extract_stops_before_valid (json_loads : string -> outcome json) :
  json_loads "5" = Returned (JInt 5) ->
  SciSciNetAgent.extract_vega_lite json_loads Script.number_then_valid =
    Raised (Exn "TypeError" "argument of type 'int' is not iterable").
Proof.
  intros Hfive. unfold SciSciNetAgent.extract_vega_lite.
  replace (findall Script.number_then_valid)
    with [ Script.lines ["5"; EmptyString];
           Script.lines [Script.dq "{'data': {'values': []}, 'mark': 'bar'}";
                         EmptyString] ]
    by (vm_compute; reflexivity).
  cbn [SciSciNetAgent.first_accepted].
  replace (PyStr.strip (Script.lines ["5"; EmptyString]))
    with "5" by (vm_compute; reflexivity).
  now rewrite Hfive.
Qed.

Lemma extract_stops_before_valid_witness :
  SciSciNetAgent.extract_vega_lite Json.loads Script.number_then_valid =
    Raised (Exn "TypeError" "argument of type 'int' is not iterable").
Proof.
  apply (extract_stops_before_valid Json.loads). vm_compute. reflexivity.
Defined.

(** Other shapes the loop does not expect: a dict whose ['$schema'] is
    [null] raises as well, and a JSON string that mentions [data] and
    [mark] is returned as the specification. *)
Example extract_schema_null :
  SciSciNetAgent.extract_vega_lite Json.loads Script.schema_null_block =
    Raised (Exn "TypeError" "argument of type 'NoneType' is not iterable").
Proof. vm_compute. reflexivity. Qed.

Example extract_string :
  SciSciNetAgent.extract_vega_lite Json.loads Script.string_block =
    Returned (Some (JStr "see the data and the mark")).
Proof. vm_compute. reflexivity. Qed.

(* ------------------------------------------------------------------ *)
(** ** The general statements at concrete inputs *)
(* ------------------------------------------------------------------ *)

Lemma execute_tool_success_witness :
  SciSciNetAgent._execute_tool Script.tools "query_papers_by_year"
    Script.year_args = Returned Script.rows.
Proof.
  apply (execute_tool_success Script.tools "query_papers_by_year"
           (fun _ => Returned Script.rows)); reflexivity.
Defined.

Lemma extract_regular_witness :
  SciSciNetAgent.extract_vega_lite Json.loads Script.malformed_then_valid =
  Returned (SciSciNetAgent.first_chart Json.loads
              (findall Script.malformed_then_valid)).
Proof.
  apply (extract_regular Json.loads Script.malformed_then_valid).
  apply Forall_regular. vm_compute. reflexivity.
Defined.

Lemma extract_no_fence_witness :
  SciSciNetAgent.extract_vega_lite Json.loads Script.no_block = Returned None.
Proof.
  apply (extract_no_fence Json.loads Script.no_block). reflexivity.
Defined.

Lemma findall_fuel_independent_witness :
  findall_from 500 Script.number_then_valid = findall Script.number_then_valid.
Proof.
  apply (findall_fuel_independent 500 Script.number_then_valid).
  vm_compute. repeat constructor.
Defined.

Lemma chat_final_answer_witness :
  SciSciNetAgent.chat Script.tools Script.direct_service Json.loads
    Script.dumps 0 Script.the_agent "hello" =
  (vega ← SciSciNetAgent.extract_vega_lite Json.loads Script.answer_text;
   Returned (Some {| text := Script.answer_text;
                     vega_lite := vega;
                     data := [] |})).
Proof.
  apply (chat_final_answer Script.tools Script.direct_service Json.loads
           Script.dumps 0 Script.the_agent "hello" Script.final_answer);
    [reflexivity | discriminate].
Defined.

Lemma query_has_patents_rows_witness :
  (0 < Tools.col_patent_count
         {| Tools.col_paperid := "W2"; Tools.col_year := 2021;
            Tools.col_cited_by_count := 25; Tools.col_patent_count := 3 |})%Z.
Proof.
  apply (query_has_patents_rows (fun l => l) Script.papers (Some 2021%Z)
           None 20%Z).
  - intros l x H. exact H.
  - vm_compute. left. reflexivity.
Defined.

(* ------------------------------------------------------------------ *)
(** ** The keys of a grouping *)
(* ------------------------------------------------------------------ *)

Section GroupKeysFacts.

Import Tools.

Context {K : Type}.
Variable lt : K -> K -> bool.

Hypothesis lt_irrefl : forall x, lt x x = false.
Hypothesis lt_trans : forall x y z, lt x y = true -> lt y z = true -> lt x z = true.
Hypothesis lt_total : forall x y, lt x y = false -> lt y x = false -> x = y.

Lemma In_insert_key (x k : K) (keys : list K) :
  In x (insert_key lt k keys) <-> x = k \/ In x keys.
Proof.
  induction keys as [|k' rest IH]; simpl.
  - intuition.
  - destruct (lt k k') eqn:H1; simpl; [intuition|].
    destruct (lt k' k) eqn:H2; simpl.
    + rewrite IH. intuition.
    + pose proof (lt_total _ _ H1 H2) as ->. intuition.
Qed.

Lemma In_group_keys (x : K) (cells : list K) :
  In x (group_keys lt cells) <-> In x cells.
Proof.
  induction cells as [|c cells IH]; simpl; [reflexivity|].
  rewrite In_insert_key, IH. intuition.
Qed.

Lemma sorted_insert_key (k : K) (keys : list K) :
  StronglySorted (fun a b => lt a b = true) keys ->
  StronglySorted (fun a b => lt a b = true) (insert_key lt k keys).
Proof.
  induction 1 as [|k' rest Hs IH Hall]; simpl.
  - repeat constructor.
  - destruct (lt k k') eqn:H1.
    + constructor; [now constructor|]. constructor; [exact H1|].
      apply List.Forall_forall. intros a Ha.
      rewrite List.Forall_forall in Hall. eauto.
    + destruct (lt k' k) eqn:H2; [|now constructor].
      constructor; [exact IH|].
      apply List.Forall_forall. intros a Ha.
      apply In_insert_key in Ha as [->|Ha]; [exact H2|].
      rewrite List.Forall_forall in Hall. now apply Hall.
Qed.

Lemma sorted_group_keys (cells : list K) :
  StronglySorted (fun a b => lt a b = true) (group_keys lt cells).
Proof.
  induction cells as [|c cells IH]; simpl; [constructor|].
  now apply sorted_insert_key.
Qed.

Lemma sorted_NoDup (keys : list K) :
  StronglySorted (fun a b => lt a b = true) keys -> List.NoDup keys.
Proof.
  induction 1 as [|k rest Hs IH Hall]; constructor; [|exact IH].
  intros Hin. rewrite List.Forall_forall in Hall.
  specialize (Hall k Hin). now rewrite lt_irrefl in Hall.
Qed.

Lemma NoDup_group_keys (cells : list K) : List.NoDup (group_keys lt cells).
Proof. apply sorted_NoDup, sorted_group_keys. Qed.

End GroupKeysFacts.

Section Orders.

Import Tools.

Lemma Zltb_irrefl (x : Z) : (x <? x)%Z = false.
Proof. apply Z.ltb_irrefl. Qed.

Lemma Zltb_trans (x y z : Z) :
  (x <? y)%Z = true -> (y <? z)%Z = true -> (x <? z)%Z = true.
Proof. rewrite !Z.ltb_lt. lia. Qed.

Lemma Zltb_total (x y : Z) :
  (x <? y)%Z = false -> (y <? x)%Z = false -> x = y.
Proof. rewrite !Z.ltb_ge. lia. Qed.

Lemma str_lt_irrefl (s : string) : str_lt s s = false.
Proof.
  induction s as [|a s IH]; simpl; [reflexivity|].
  now rewrite Nat.ltb_irrefl.
Qed.

Lemma str_lt_trans (s t u : string) :
  str_lt s t = true -> str_lt t u = true -> str_lt s u = true.
Proof.
  revert t u; induction s as [|a s IH]; intros [|b t] [|c u]; simpl;
    try discriminate; try reflexivity.
  destruct (nat_of_ascii a <? nat_of_ascii b)%nat eqn:Hab,
           (nat_of_ascii b <? nat_of_ascii a)%nat eqn:Hba,
           (nat_of_ascii b <? nat_of_ascii c)%nat eqn:Hbc,
           (nat_of_ascii c <? nat_of_ascii b)%nat eqn:Hcb,
           (nat_of_ascii a <? nat_of_ascii c)%nat eqn:Hac,
           (nat_of_ascii c <? nat_of_ascii a)%nat eqn:Hca;
    try discriminate; try reflexivity;
    rewrite ?Nat.ltb_lt, ?Nat.ltb_ge in *; try lia.
  apply IH.
Qed.

Lemma str_lt_total (s t : string) :
  str_lt s t = false -> str_lt t s = false -> s = t.
Proof.
  revert t; induction s as [|a s IH]; intros [|b t]; simpl;
    try discriminate; try reflexivity.
  destruct (nat_of_ascii a <? nat_of_ascii b)%nat eqn:Hab; [discriminate|].
  destruct (nat_of_ascii b <? nat_of_ascii a)%nat eqn:Hba; [discriminate|].
  intros H1 H2. rewrite Nat.ltb_ge in Hab, Hba.
  assert (Heq : nat_of_ascii a = nat_of_ascii b) by lia.
  apply (f_equal ascii_of_nat) in Heq. rewrite !ascii_nat_embedding in Heq.
  subst b. f_equal. now apply IH.
Qed.

End Orders.

(* ------------------------------------------------------------------ *)
(** ** The grouped queries *)
(* ------------------------------------------------------------------ *)

Section GroupedQueries.

Import Tools.

Lemma total_app (l1 l2 : list Z) : total (l1 ++ l2) = (total l1 + total l2)%Z.
Proof.
  unfold total. induction l1 as [|x l1 IH]; simpl; [reflexivity|].
  rewrite IH. lia.
Qed.

Lemma sorted_Zlt (keys : list Z) :
  StronglySorted (fun a b => (a <? b)%Z = true) keys ->
  StronglySorted Z.lt keys.
Proof.
  induction 1 as [|k rest Hs IH Hall]; constructor; [exact IH|].
  rewrite List.Forall_forall in *. intros x Hx. now apply Z.ltb_lt, Hall.
Qed.

Lemma group_keys_years_sorted (cells : list Z) :
  StronglySorted Z.lt (group_keys Z.ltb cells).
Proof.
  apply sorted_Zlt, sorted_group_keys.
  - exact Zltb_trans.
  - exact Zltb_total.
Qed.

Lemma group_keys_years_In (y : Z) (cells : list Z) :
  In y (group_keys Z.ltb cells) <-> In y cells.
Proof. apply In_group_keys. exact Zltb_total. Qed.

(** Grouping by year splits the rows: whatever is added up over the
    rows, adding it up group by group gives the same. *)
Lemma total_by_year (f : paper -> Z) (keys : list Z) :
  List.NoDup keys ->
  forall df : list paper,
    (forall p, In p df -> In (col_year p) keys) ->
    total (map (fun y => total (map f (papers_of_year df y))) keys) =
    total (map f df).
Proof.
  induction 1 as [|k keys Hk Hnd IH]; intros df Hcover.
  - destruct df as [|p df]; [reflexivity|]. destruct (Hcover p); now left.
  - simpl.
    set (others := List.filter (fun p => negb (col_year p =? k)%Z) df).
    assert (Hrest :
      map (fun y => total (map f (papers_of_year df y))) keys =
      map (fun y => total (map f (papers_of_year others y))) keys).
    { apply map_ext_in. intros y Hy. f_equal. f_equal.
      unfold papers_of_year, others.
      clear -Hy Hk. induction df as [|p df IHdf]; simpl; [reflexivity|].
      destruct (col_year p =? k)%Z eqn:Hpk; simpl.
      - destruct (col_year p =? y)%Z eqn:Hpy; [|exact IHdf].
        apply Z.eqb_eq in Hpk, Hpy. subst. contradiction.
      - destruct (col_year p =? y)%Z; simpl; now rewrite IHdf. }
    rewrite Hrest, (IH others).
    + unfold papers_of_year, others. clear.
      induction df as [|p df IHdf]; simpl; [reflexivity|].
      destruct (col_year p =? k)%Z; simpl; lia.
    + intros p Hp. unfold others in Hp. apply filter_In in Hp as [Hp Hne].
      destruct (Hcover p Hp) as [Heq|Hin]; [|exact Hin].
      subst k. now rewrite Z.eqb_refl in Hne.
Qed.

Lemma total_cons (x : Z) (l : list Z) : total (x :: l) = (x + total l)%Z.
Proof. reflexivity. Qed.

Lemma total_ones {A : Type} (l : list A) :
  total (map (fun _ => 1%Z) l) = Z.of_nat (length l).
Proof.
  induction l as [|x l IH]; [reflexivity|].
  cbn [map length]. rewrite total_cons. lia.
Qed.

Lemma int64_idem (a b : Z) : int64 (int64 a + b) = int64 (a + b).
Proof.
  unfold int64. f_equal.
  replace ((a + 2 ^ 63) mod 2 ^ 64 - 2 ^ 63 + b + 2 ^ 63)%Z
    with ((a + 2 ^ 63) mod 2 ^ 64 + b)%Z by lia.
  rewrite Zplus_mod_idemp_l. f_equal. lia.
Qed.

Lemma int64_total_column_sum (groups : list (list Z)) :
  int64 (total (map column_sum groups)) = int64 (total (map total groups)).
Proof.
  induction groups as [|g groups IH]; [reflexivity|].
  cbn [map]. rewrite !total_cons. unfold column_sum at 1.
  rewrite int64_idem.
  rewrite (Z.add_comm (total g)), <- int64_idem, IH, int64_idem.
  f_equal. lia.
Qed.

Lemma int64_small (z : Z) :
  (- 2 ^ 63 <= z < 2 ^ 63)%Z -> int64 z = z.
Proof. intros H. unfold int64. rewrite Z.mod_small; lia. Qed.

(** The years of the rows of [query_papers_by_year] are strictly
    increasing, and a year has a row exactly when it lies between
    [start_year] and [end_year] and some paper is of that year. *)
Lemma papers_by_year_years (df : list paper) (start_year end_year : Z) :
  StronglySorted Z.lt
    (map yr_year (query_papers_by_year df start_year end_year)) /\
  forall y : Z,
    In y (map yr_year (query_papers_by_year df start_year end_year)) <->
    (start_year <= y <= end_year)%Z /\ exists p, In p df /\ col_year p = y.
Proof.
  unfold query_papers_by_year. rewrite map_map. simpl. rewrite map_id.
  split; [apply group_keys_years_sorted|].
  intros y. rewrite group_keys_years_In, in_map_iff. split.
  - intros (p & <- & Hp). apply filter_In in Hp as [Hp Hr].
    apply andb_true_iff in Hr as [H1 H2]. apply Z.leb_le in H1, H2.
    split; [lia|]. now exists p.
  - intros (Hr & p & Hp & <-). exists p. split; [reflexivity|].
    apply filter_In. split; [exact Hp|].
    apply andb_true_iff. split; apply Z.leb_le; lia.
Qed.

(** Every paper of the range is counted in exactly one row: the paper
    counts of the rows add up to the number of papers whose year lies in
    the range, and the two sums add up, within [int64], to the sums over
    these papers. *)
Lemma papers_by_year_conserves (df : list paper) (start_year end_year : Z) :
  let in_range :=
    List.filter (fun p => (start_year <=? col_year p)%Z
                          && (col_year p <=? end_year)%Z) df in
  let rows := query_papers_by_year df start_year end_year in
  total (map yr_paper_count rows) = Z.of_nat (length in_range) /\
  int64 (total (map yr_total_citations rows)) =
    column_sum (map col_cited_by_count in_range) /\
  int64 (total (map yr_total_patents rows)) =
    column_sum (map col_patent_count in_range).
Proof.
  intros in_range rows. unfold rows, query_papers_by_year.
  fold in_range. rewrite !map_map. cbn [yr_paper_count yr_total_citations
                                        yr_total_patents].
  assert (Hnd : List.NoDup (group_keys Z.ltb (map col_year in_range))).
  { apply NoDup_group_keys;
      [exact Zltb_irrefl | exact Zltb_trans | exact Zltb_total]. }
  assert (Hcover : forall p, In p in_range ->
            In (col_year p) (group_keys Z.ltb (map col_year in_range))).
  { intros p Hp. apply group_keys_years_In. now apply in_map. }
  split; [|split].
  - rewrite <- total_ones, <- (total_by_year (fun _ => 1%Z) _ Hnd _ Hcover).
    f_equal. apply map_ext. intros y. now rewrite total_ones.
  - unfold column_sum at 2.
    rewrite <- (total_by_year col_cited_by_count _ Hnd _ Hcover).
    rewrite <- (map_map (fun y => map col_cited_by_count
                                    (papers_of_year in_range y)) total).
    rewrite <- int64_total_column_sum, map_map. reflexivity.
  - unfold column_sum at 2.
    rewrite <- (total_by_year col_patent_count _ Hnd _ Hcover).
    rewrite <- (map_map (fun y => map col_patent_count
                                    (papers_of_year in_range y)) total).
    rewrite <- int64_total_column_sum, map_map. reflexivity.
Qed.


(** A metric that is none of the three names gives the rows of
    ['papers'], except that the rows carry the metric as it was given;
    every row carries the metric of the call. *)
Lemma yearly_trend_unknown_metric (df : list paper) (metric : string) :
  metric <> "citations" -> metric <> "patents" ->
  map (fun r => (trend_year r, trend_value r)) (query_yearly_trend df metric) =
  map (fun r => (trend_year r, trend_value r)) (query_yearly_trend df "papers")
  /\ Forall (fun r => trend_metric r = metric) (query_yearly_trend df metric).
Proof.
  intros Hc Hp. apply String.eqb_neq in Hc, Hp.
  unfold query_yearly_trend. rewrite !map_map. simpl. split.
  - apply map_ext. intros y. rewrite Hc, Hp.
    now destruct (String.eqb metric "papers").
  - apply List.Forall_forall. intros r Hr.
    apply in_map_iff in Hr as (y & <- & _). reflexivity.
Qed.

(** When no paper is later than [end_year], the yearly trend is the
    query by year from 2000 on, column by column. *)
Lemma yearly_trend_papers_by_year (df : list paper) (end_year : Z) :
  (forall p, In p df -> (col_year p <= end_year)%Z) ->
  let rows := query_papers_by_year df 2000 end_year in
  map (fun r => (trend_year r, trend_value r)) (query_yearly_trend df "papers")
    = map (fun r => (yr_year r, yr_paper_count r)) rows /\
  map (fun r => (trend_year r, trend_value r))
      (query_yearly_trend df "citations")
    = map (fun r => (yr_year r, yr_total_citations r)) rows /\
  map (fun r => (trend_year r, trend_value r)) (query_yearly_trend df "patents")
    = map (fun r => (yr_year r, yr_total_patents r)) rows.
Proof.
  intros Hend rows. unfold rows, query_yearly_trend, query_papers_by_year.
  assert (Hf : List.filter (fun p => (2000 <=? col_year p)%Z
                                     && (col_year p <=? end_year)%Z) df =
               List.filter (fun p => (2000 <=? col_year p)%Z) df).
  { clear rows. induction df as [|p df IH]; [reflexivity|]. simpl.
    assert (Hp : (col_year p <=? end_year)%Z = true).
    { apply Z.leb_le, Hend. now left. }
    rewrite Hp, andb_true_r, IH; [reflexivity|].
    intros q Hq. apply Hend. now right. }
  rewrite Hf, !map_map. simpl. repeat split.
Qed.

Lemma column_max_spec (cells : list Z) (m : Z) :
  column_max cells = Some m ->
  In m cells /\ forall x, In x cells -> (x <= m)%Z.
Proof.
  destruct cells as [|c rest]; [discriminate|]. intros [= <-].
  clear. revert c. induction rest as [|d rest IH]; intros c; simpl.
  - split; [now left | intros x [->|[]]; lia].
  - destruct (IH c) as [Hin Hle]. simpl in Hin. split.
    + destruct (Z.max_spec d (fold_right Z.max c rest)) as [[_ ->]|[_ ->]].
      * destruct Hin as [Hin|Hin]; [now left | right; now right].
      * right. now left.
    + intros x [->|[->|Hx]].
      * specialize (Hle x (or_introl eq_refl)). lia.
      * lia.
      * specialize (Hle x (or_intror Hx)). lia.
Qed.

End GroupedQueries.

Section StatisticsFacts.

Import Tools.

Variable float : Type.
Variable mean : list Z -> float.

(** On an empty data frame [query_citation_stats] raises the
    [ValueError] of [int(nan)]. Otherwise it returns, [max_citations] is
    the citation count of some paper and no paper has more, and the
    papers with patents are at most all the papers. *)
Lemma citation_stats_spec {R : Type} (df : list paper) (df_refs : list R) :
  match df with
  | [] =>
      query_citation_stats float mean df df_refs =
        Raised (Exn "ValueError" "cannot convert float NaN to integer")
  | _ :: _ =>
      exists st,
        query_citation_stats float mean df df_refs = Returned st /\
        total_papers float st = Z.of_nat (length df) /\
        (exists p, In p df /\ col_cited_by_count p = max_citations float st) /\
        (forall p, In p df ->
                   (col_cited_by_count p <= max_citations float st)%Z) /\
        (0 <= papers_with_patents float st <= total_papers float st)%Z
  end.
Proof.
  destruct df as [|p0 df]; [reflexivity|].
  unfold query_citation_stats.
  destruct (column_max (map col_cited_by_count (p0 :: df))) as [m|] eqn:Hm;
    [|discriminate].
  apply column_max_spec in Hm as [Hin Hle]. simpl int_of_max.
  eexists. split; [reflexivity|]. cbn [total_papers max_citations
                                       papers_with_patents].
  split; [reflexivity|]. split; [|split].
  - apply in_map_iff in Hin as (p & Hp & Hin). now exists p.
  - intros p Hp. apply Hle. now apply in_map.
  - pose proof (filter_length_le (fun p => (0 <? col_patent_count p)%Z)
                  (p0 :: df)). lia.
Qed.

Lemma authors_per_paper_positive (df_paa : list paper_author) :
  Forall (fun n => (1 <= n)%Z) (authors_per_paper df_paa).
Proof.
  apply List.Forall_forall. intros n Hn. unfold authors_per_paper in Hn.
  apply in_map_iff in Hn as (pid & <- & Hpid).
  apply In_group_keys in Hpid; [|exact str_lt_total].
  apply in_map_iff in Hpid as (r & <- & Hr).
  assert (Hin : In r (List.filter
                        (fun r' => String.eqb (pa_paperid r') (pa_paperid r))
                        df_paa)).
  { apply filter_In. split; [exact Hr | apply String.eqb_refl]. }
  destruct (List.filter _ df_paa); [contradiction | simpl length; lia].
Qed.

Lemma single_or_multi (sizes : list Z) :
  Forall (fun n => (1 <= n)%Z) sizes ->
  (length (List.filter (fun n => (n =? 1)%Z) sizes) +
   length (List.filter (fun n => (1 <? n)%Z) sizes))%nat = length sizes.
Proof.
  induction 1 as [|n sizes Hn _ IH]; [reflexivity|]. simpl.
  destruct (n =? 1)%Z eqn:H1, (1 <? n)%Z eqn:H2; simpl;
    rewrite ?Z.eqb_eq, ?Z.eqb_neq, ?Z.ltb_lt, ?Z.ltb_ge in *; lia.
Qed.

(** On an empty data frame [query_collaboration_stats] raises the
    [ValueError] of [int(nan)]. Otherwise it returns, every paper is
    either a single-author or a multi-author paper, so that the two
    counts add up to the number of distinct paper ids, and the largest
    number of rows of one paper is at least 1. *)
Lemma collaboration_stats_spec (df_paa : list paper_author) :
  match df_paa with
  | [] =>
      query_collaboration_stats float mean df_paa =
        Raised (Exn "ValueError" "cannot convert float NaN to integer")
  | _ :: _ =>
      exists st,
        query_collaboration_stats float mean df_paa = Returned st /\
        (single_author_papers float st + multi_author_papers float st)%Z =
          Z.of_nat (length (group_keys str_lt (map pa_paperid df_paa))) /\
        List.NoDup (group_keys str_lt (map pa_paperid df_paa)) /\
        (forall pid, In pid (group_keys str_lt (map pa_paperid df_paa)) <->
                     exists r, In r df_paa /\ pa_paperid r = pid) /\
        (1 <= max_authors_on_paper float st)%Z
  end.
Proof.
  destruct df_paa as [|r0 df_paa]; [reflexivity|].
  set (df := r0 :: df_paa). unfold query_collaboration_stats.
  pose proof (authors_per_paper_positive df) as Hpos.
  destruct (column_max (authors_per_paper df)) as [m|] eqn:Hm.
  - apply column_max_spec in Hm as [Hin _]. simpl int_of_max.
    eexists. split; [reflexivity|].
    cbn [single_author_papers multi_author_papers max_authors_on_paper].
    split; [|split; [|split]].
    + rewrite <- Nat2Z.inj_add, (single_or_multi _ Hpos).
      unfold authors_per_paper. now rewrite length_map.
    + apply NoDup_group_keys;
        [exact str_lt_irrefl | exact str_lt_trans | exact str_lt_total].
    + intros pid. rewrite In_group_keys by exact str_lt_total.
      rewrite in_map_iff. split; intros (r & H1 & H2); exists r; tauto.
    + rewrite List.Forall_forall in Hpos. now apply Hpos.
  - exfalso. unfold authors_per_paper in Hm.
    assert (Hk : In (pa_paperid r0) (group_keys str_lt (map pa_paperid df))).
    { apply In_group_keys; [exact str_lt_total | now left]. }
    destruct (group_keys str_lt (map pa_paperid df)); [contradiction|].
    discriminate.
Qed.

End StatisticsFacts.

(* ------------------------------------------------------------------ *)
(** ** The chart helper *)
(* ------------------------------------------------------------------ *)

Section ChartsFacts.

Variable str_title : string -> string.

(** Whatever [generate_vega_lite_spec] returns passes the test that the
    agent applies to the charts of an answer, by clause A and by clause B
    at once; it holds the rows it was given, and its x channel is ordinal
    exactly for a bar chart. *)
Lemma generated_spec_accepted (data : list json)
    (chart_type x_field y_field title : string) (spec : json) :
  generate_vega_lite_spec str_title data chart_type x_field y_field title =
    Returned spec ->
  SciSciNetAgent.accepts spec = Returned true /\
  (exists fields, spec = JObj fields /\
     SciSciNetAgent.clause_a fields = true /\
     SciSciNetAgent.clause_b fields = true) /\
  dict_path "data" "values" spec = Some (JArr data) /\
  (exists x_channel,
     dict_path "encoding" "x" spec = Some x_channel /\
     py_get x_channel "type" JNull =
       Returned (JStr (if String.eqb chart_type "bar" then "ordinal"
                       else "quantitative"))).
Proof.
  unfold generate_vega_lite_spec. intros H.
  destruct (match data with
            | [] => Returned false
            | first :: _ => py_in "metric" first
            end) as [[|]|e]; simpl in H; try discriminate;
    injection H as <-; (split; [reflexivity|]);
    (split; [eexists; split; [reflexivity|]; split; reflexivity|]);
    (split; [reflexivity|]); eexists; split; reflexivity.
Qed.

(** The colour channel. Without rows the helper returns a chart without
    one; with rows that are dicts the chart has the channel exactly when
    the first row has the key ['metric'], whatever the other rows hold;
    a first row that is [None] makes the helper raise a [TypeError]. *)
Lemma generated_spec_color (chart_type x_field y_field title : string) :
  (exists spec,
     generate_vega_lite_spec str_title [] chart_type x_field y_field title =
       Returned spec /\
     dict_path "encoding" "color" spec = None) /\
  (forall (row : list (string * json)) (rest : list json),
     exists spec,
       generate_vega_lite_spec str_title (JObj row :: rest) chart_type
         x_field y_field title = Returned spec /\
       dict_path "encoding" "color" spec =
         if dict_has "metric" row
         then Some (JObj [("field", JStr "metric"); ("type", JStr "nominal")])
         else None) /\
  (forall rest : list json,
     exists msg,
       generate_vega_lite_spec str_title (JNull :: rest) chart_type
         x_field y_field title = Raised (Exn "TypeError" msg)).
Proof.
  split; [|split].
  - eexists. split; reflexivity.
  - intros row rest. unfold generate_vega_lite_spec. simpl py_in.
    destruct (dict_has "metric" row); simpl; eexists; split; reflexivity.
  - intros rest. eexists. reflexivity.
Qed.

End ChartsFacts.

(* ------------------------------------------------------------------ *)
(** ** The HTTP handlers *)
(* ------------------------------------------------------------------ *)

Section AppFacts.

Import App.

(** Once [get_agent] has returned an agent, every later call returns the
    same agent and leaves the global alone, whatever the environment has
    become. *)
Lemma get_agent_cached (getenv : string -> option string)
    (_agent _agent' : option agent) (a : agent) :
  get_agent getenv _agent = (Returned a, _agent') ->
  forall getenv' : string -> option string,
    get_agent getenv' _agent' = (Returned a, _agent').
Proof.
  unfold get_agent. destruct _agent as [a0|].
  - intros [= <- <-]. reflexivity.
  - destruct (negb (truthy (getenv "ANTHROPIC_API_KEY"))); [discriminate|].
    destruct (SciSciNetAgent.__init__ _ _); [|discriminate].
    intros [= <- <-]. reflexivity.
Qed.

(** What a failure of [get_agent] tells. *)
Lemma get_agent_raises_inv (getenv : string -> option string)
    (_agent _agent' : option agent) (e : exn) :
  get_agent getenv _agent = (Raised e, _agent') ->
  e = Exn "ValueError" "ANTHROPIC_API_KEY not set" /\
  _agent = None /\ _agent' = None /\
  truthy (getenv "ANTHROPIC_API_KEY") = false.
Proof.
  unfold get_agent. destruct _agent as [a0|]; [discriminate|].
  destruct (truthy (getenv "ANTHROPIC_API_KEY")) eqn:Hk; simpl.
  - unfold SciSciNetAgent.__init__, py_or. rewrite Hk. simpl. rewrite Hk.
    discriminate.
  - intros [= <- <-]. repeat split.
Qed.

(** [get_agent] fails only when no agent is cached and the environment
    has no key, with its own message and never with the one of the
    constructor; the failure is not cached. *)
Lemma get_agent_failure (getenv : string -> option string)
    (_agent _agent' : option agent) (e : exn) :
  get_agent getenv _agent = (Raised e, _agent') ->
  e = Exn "ValueError" "ANTHROPIC_API_KEY not set" /\
  _agent = None /\ _agent' = None /\
  truthy (getenv "ANTHROPIC_API_KEY") = false.
Proof. apply get_agent_raises_inv. Qed.

(** The flag of [health] says whether [get_agent] would succeed on a
    fresh process. *)
Lemma health_agrees_with_get_agent (getenv : string -> option string) :
  health getenv =
    JObj [ ("status", JStr "ok");
           ("api_key_configured",
            JBool (negb (is_raised (fst (get_agent getenv None))))) ].
Proof.
  unfold health, get_agent.
  destruct (truthy (getenv "ANTHROPIC_API_KEY")) eqn:Hk; simpl;
    [|reflexivity].
  unfold SciSciNetAgent.__init__, py_or. rewrite Hk. simpl. now rewrite Hk.
Qed.

Section ChatFacts.

Variable TOOLS : gmap string (json -> outcome json).
Variable create : request -> outcome response.
Variable json_loads : string -> outcome json.
Variable json_dumps : json -> string.
Variable is_value_error : string -> bool.
Variable float_truthy : string -> bool.
Variable chat_other : agent -> json -> outcome (option chat_result).

#[local] Abbreviation chat_handler :=
  (chat TOOLS create json_loads json_dumps is_value_error float_truthy
     chat_other).

(** A body without a message, or with a message that is false, is
    answered by 400 before the agent is looked up: the global is left
    alone and it does not matter whether a key is configured. *)
Lemma chat_requires_message (fuel : nat) (getenv : string -> option string)
    (fields : list (string * json)) (_agent : option agent) :
  match dict_get "message" fields with
  | Some v => py_truthy float_truthy v = false
  | None => True
  end ->
  chat_handler fuel getenv (Returned (JObj fields)) _agent =
    Some ({| body := ErrorPayload "Message is required"; status := 400 |},
          _agent).
Proof.
  intros H. unfold chat. simpl py_get.
  destruct (dict_get "message" fields) as [v|]; [now rewrite H|reflexivity].
Qed.

(** With a message and without a key, on a fresh process, the answer is
    500 with the message of [get_agent], without the prefix of the
    second handler, and no agent is cached. *)
Lemma chat_without_key (fuel : nat) (getenv : string -> option string)
    (fields : list (string * json)) (message : json) :
  is_value_error "ValueError" = true ->
  dict_get "message" fields = Some message ->
  py_truthy float_truthy message = true ->
  truthy (getenv "ANTHROPIC_API_KEY") = false ->
  chat_handler fuel getenv (Returned (JObj fields)) None =
    Some ({| body := ErrorPayload "ANTHROPIC_API_KEY not set";
             status := 500 |}, None).
Proof.
  intros Hve Hm Ht Hk. unfold chat. simpl py_get. rewrite Hm, Ht. simpl.
  unfold get_agent. rewrite Hk. simpl. unfold error_response. simpl.
  now rewrite Hve.
Qed.

(** Every response is of one of three kinds: 200 with the result of the
    agent, 400 for a missing message, 500 with an error message; and a
    cached agent stays cached. *)
Lemma chat_response_kinds (fuel : nat) (getenv : string -> option string)
    (request_json : outcome json) (_agent _agent' : option agent)
    (r : http_response) :
  chat_handler fuel getenv request_json _agent = Some (r, _agent') ->
  ((exists result, r = {| body := ChatPayload result; status := 200 |}) \/
   r = {| body := ErrorPayload "Message is required"; status := 400 |} \/
   (exists error, r = {| body := ErrorPayload error; status := 500 |})) /\
  (forall a, _agent = Some a -> _agent' = Some a).
Proof.
  unfold chat. destruct request_json as [data|e].
  2:{ intros [= <- <-]. split; [|auto]. right. right. eexists. reflexivity. }
  destruct (py_get data "message" (JStr EmptyString)) as [message|e].
  2:{ intros [= <- <-]. split; [|auto]. right. right. eexists. reflexivity. }
  destruct (negb (py_truthy float_truthy message)).
  { intros [= <- <-]. split; [|auto]. right. now left. }
  destruct (get_agent getenv _agent) as [[a|e] st] eqn:Hget.
  - assert (Hst : forall a0, _agent = Some a0 -> st = Some a0).
    { intros a0 ->. simpl in Hget. now injection Hget as _ <-. }
    destruct (match message with
              | JStr s => SciSciNetAgent.chat TOOLS create json_loads
                            json_dumps fuel a s
              | _ => chat_other a message
              end) as [[result|]|e]; [| discriminate |].
    + intros [= <- <-]. split; [|exact Hst]. left. eexists. reflexivity.
    + intros [= <- <-]. split; [|exact Hst].
      right. right. eexists. reflexivity.
  - apply get_agent_raises_inv in Hget as (_ & -> & -> & _).
    intros [= <- <-]. split; [|auto]. right. right. eexists. reflexivity.
Qed.

End ChatFacts.

Section EndpointFacts.

Variable py_int : string -> option Z.
Variable str_title : string -> string.
Variable df : list Tools.paper.


(** The yearly-trend handler always answers; its chart passes the test
    of the agent and has the colour channel exactly when there are
    rows. *)
Lemma yearly_trend_response (args : list (string * string)) :
  exists rows spec,
    yearly_trend str_title df args =
      Returned (JObj [("data", JArr rows); ("vega_lite", spec)]) /\
    SciSciNetAgent.accepts spec = Returned true /\
    dict_path "encoding" "color" spec =
      match rows with
      | [] => None
      | _ :: _ =>
          Some (JObj [("field", JStr "metric"); ("type", JStr "nominal")])
      end.
Proof.
  unfold yearly_trend.
  set (rows := map trend_row_json
                 (Tools.query_yearly_trend df (args_get args "metric" "papers"))).
  exists rows. unfold generate_vega_lite_spec.
  destruct rows as [|first rest] eqn:Hrows.
  - eexists. repeat split.
  - assert (Hfirst : py_in "metric" first = Returned true).
    { assert (Hin : In first rows) by (rewrite Hrows; now left).
      unfold rows in Hin. apply in_map_iff in Hin as (r & <- & _).
      reflexivity. }
    rewrite Hfirst. eexists. repeat split.
Qed.

End EndpointFacts.

End AppFacts.

(* ------------------------------------------------------------------ *)
(** ** More on the registry, the loop, the extraction and the filters *)
(* ------------------------------------------------------------------ *)

Section DictFacts.

Context {V : Type}.

Lemma dict_has_set_same (k : string) (v : V) (d : list (string * V)) :
  dict_has k (dict_set k v d) = true.
Proof.
  unfold dict_has. induction d as [|[k' v'] d IH]; simpl.
  - now rewrite String.eqb_refl.
  - destruct (String.eqb k' k) eqn:Hk; simpl; now rewrite Hk.
Qed.

Lemma dict_get_set_other (k k' : string) (v : V) (d : list (string * V)) :
  k <> k' -> dict_get k' (dict_set k v d) = dict_get k' d.
Proof.
  intros Hne. apply String.eqb_neq in Hne.
  induction d as [|[k0 v0] d IH]; simpl.
  - now rewrite Hne.
  - destruct (String.eqb k0 k) eqn:H0; simpl.
    + apply String.eqb_eq in H0. subst k0. now rewrite Hne.
    + now rewrite IH.
Qed.

Lemma dict_has_set_iff (k k' : string) (v : V) (d : list (string * V)) :
  dict_has k' (dict_set k v d) = true <-> k' = k \/ dict_has k' d = true.
Proof.
  destruct (String.eqb_spec k k') as [->|Hne].
  - rewrite dict_has_set_same. tauto.
  - unfold dict_has. rewrite dict_get_set_other by assumption.
    split; [tauto | intros [?|?]; [congruence | assumption]].
Qed.

End DictFacts.

Section RegistryMore.

Lemma properties_fold (params : list (string * param_info))
    (s : input_schema) (name : string) :
  dict_has name (properties (fold_left add_parameter params s)) = true <->
  In name (map fst params) \/ dict_has name (properties s) = true.
Proof.
  revert s; induction params as [|[n info] params IH]; intros s; simpl.
  - tauto.
  - rewrite IH. simpl. rewrite dict_has_set_iff. intuition.
Qed.

(** The schema derived from a tool description is well formed: its type
    is ["object"], its properties are exactly the parameters of the
    description, and every required name is one of its properties. *)
Lemma required_are_properties (name : string) (info : tool_description) :
  let schema := ts_input_schema (tool_for_api (name, info)) in
  schema_type schema = "object" /\
  (forall p, dict_has p (properties schema) = true <->
             In p (map fst (default [] (td_parameters info)))) /\
  (forall p, In p (required schema) -> dict_has p (properties schema) = true).
Proof.
  intros schema. unfold schema, tool_for_api. cbn [ts_input_schema].
  split; [apply schema_type_fold|].
  assert (Hprops : forall p,
            dict_has p (properties
              (fold_left add_parameter (default [] (td_parameters info))
                 {| schema_type := "object"; properties := [];
                    required := [] |})) = true <->
            In p (map fst (default [] (td_parameters info)))).
  { intros p. rewrite properties_fold. simpl. unfold dict_has. simpl.
    intuition discriminate. }
  split; [exact Hprops|].
  intros p Hp. apply Hprops. rewrite required_fold in Hp. simpl in Hp.
  apply in_map_iff in Hp as (q & <- & Hq). apply filter_In in Hq as [Hq _].
  now apply in_map.
Qed.

End RegistryMore.

Section ConstructionMore.

Import SciSciNetAgent.

(** A non-empty key given to the constructor is the key of the agent,
    whatever the environment holds; without one, the key of the
    environment is. The model is always the same. *)
Lemma init_key_precedence (getenv : string -> option string)
    (key : option string) (a : agent) :
  __init__ getenv key = Returned a ->
  Some (api_key a) =
    (if truthy key then key else getenv "ANTHROPIC_API_KEY") /\
  model a = "claude-sonnet-4-20250514".
Proof.
  unfold __init__, py_or.
  destruct (truthy key) eqn:Hk.
  - rewrite Hk. simpl. intros [= <-]. simpl. split; [|reflexivity].
    now destruct key.
  - destruct (truthy (getenv "ANTHROPIC_API_KEY")) eqn:He; simpl;
      [|discriminate].
    intros [= <-]. simpl. split; [|reflexivity].
    now destruct (getenv "ANTHROPIC_API_KEY").
Qed.

End ConstructionMore.

Section LoopMore.

Import SciSciNetAgent.

Variable TOOLS : gmap string (json -> outcome json).
Variable create : request -> outcome response.
Variable json_loads : string -> outcome json.
Variable json_dumps : json -> string.




(** What the extraction returns was found and accepted: a specification
    is the parsed form of one of the candidates and passes the test; and
    when none is returned, every candidate failed to parse or failed the
    test. *)
Lemma extract_sound (text_response : string) (found : option json) :
  extract_vega_lite json_loads text_response = Returned found ->
  match found with
  | Some spec =>
      exists m, In m (findall text_response) /\
                json_loads (PyStr.strip m) = Returned spec /\
                accepts spec = Returned true
  | None =>
      Forall (fun m =>
                match json_loads (PyStr.strip m) with
                | Returned v => accepts v = Returned false
                | Raised e => exn_class e = "JSONDecodeError"
                end) (findall text_response)
  end.
Proof.
  unfold extract_vega_lite.
  induction (findall text_response) as [|m rest IH]; cbn [first_accepted].
  - intros [= <-]. constructor.
  - destruct (json_loads (PyStr.strip m)) as [v|e] eqn:Hv; simpl.
    + destruct (accepts v) as [[|]|e] eqn:Ha; simpl.
      * intros [= <-]. exists m. split; [now left|]. now split.
      * intros H. specialize (IH H). destruct found as [spec|].
        -- destruct IH as (m' & Hin & Hrest). exists m'.
           split; [now right | exact Hrest].
        -- constructor; [now rewrite Hv | exact IH].
      * unfold try_except_class. simpl.
        destruct (String.eqb (exn_class e) "JSONDecodeError") eqn:He; simpl;
          [|discriminate].
        exfalso. clear -Ha He. unfold accepts, py_in, py_get in Ha.
        destruct v; simpl in Ha;
          repeat match type of Ha with
                 | context [match ?x with _ => _ end] =>
                     destruct x eqn:?; simpl in Ha
                 end;
          try discriminate; injection Ha as <-; discriminate.
    + unfold try_except_class. simpl.
      destruct (String.eqb (exn_class e) "JSONDecodeError") eqn:He; simpl;
        [|discriminate].
      intros H. specialize (IH H). destruct found as [spec|].
      * destruct IH as (m' & Hin & Hrest). exists m'.
        split; [now right | exact Hrest].
      * constructor; [|exact IH]. rewrite Hv. now apply String.eqb_eq.
Qed.

End LoopMore.

Section FiltersMore.

Import Tools.

Variable sort_by_citations_desc : list paper -> list paper.

(** With a limit that is not negative, at most [limit] rows are
    returned, whatever the filters and the sort. *)
Lemma query_length_le_limit (df : list paper) (year min_citations : option Z)
    (has_patents : option bool) (limit : Z) :
  (0 <= limit)%Z ->
  (Z.of_nat (length (query_papers_with_filters sort_by_citations_desc df
                       year min_citations has_patents limit)) <= limit)%Z.
Proof.
  intros Hl. unfold query_papers_with_filters, head.
  destruct (0 <=? limit)%Z eqn:H0; [|apply Z.leb_gt in H0; lia].
  rewrite length_take. lia.
Qed.

End FiltersMore.

Section FindallMore.

Import PyStr.

Lemma split_first_spec (sep s before after : string) :
  split_first sep s = Some (before, after) ->
  s = before +:+ sep +:+ after /\
  (sep <> EmptyString -> contains sep before = false).
Proof.
  revert before; induction s as [|c s IH]; intros before; simpl.
  - destruct (startswith sep EmptyString) eqn:Hp; [|discriminate].
    intros [= <- <-]. split.
    + rewrite append_nil. now apply startswith_split.
    + intros Hsep. now apply contains_nonempty_nil.
  - destruct (startswith sep (String c s)) eqn:Hp.
    + intros [= <- <-]. split.
      * rewrite append_nil. now apply (startswith_split sep (String c s)).
      * intros Hsep. now apply contains_nonempty_nil.
    + destruct (split_first sep s) as [[b a]|]; [|discriminate].
      intros [= <- <-]. destruct (IH b eq_refl) as [Hs Hc]. split.
      * rewrite append_cons. now f_equal.
      * intros Hsep. cbn [contains]. rewrite (Hc Hsep), orb_false_r.
        destruct (startswith sep (String c b)) eqn:Hb; [|reflexivity].
        apply (startswith_app_l _ _ (sep +:+ a)) in Hb.
        rewrite append_cons, <- Hs in Hb. congruence.
Qed.

Lemma token_length_prefix (toks : list string) (pre rest : string) :
  token_length toks (pre +:+ rest) = 0%nat -> token_length toks pre = 0%nat.
Proof.
  induction toks as [|tok toks IH]; simpl; [reflexivity|].
  destruct (startswith tok (pre +:+ rest)) eqn:Hw.
  - intros Hlen. destruct tok; [reflexivity | discriminate].
  - intros H. destruct (startswith tok pre) eqn:Hp; [|now apply IH].
    apply (startswith_app_l _ _ rest) in Hp. congruence.
Qed.

Lemma token_length_nil (toks : list string) :
  token_length toks EmptyString = 0%nat.
Proof.
  induction toks as [|tok toks IH]; simpl; [reflexivity|].
  now destruct tok.
Qed.

Lemma lstrip_from_no_token (toks : list string) (s : string) :
  forall k, token_length toks (lstrip_from toks k s) = 0%nat.
Proof.
  induction s as [|c s IH]; intros k; simpl; [apply token_length_nil|].
  destruct k as [|k]; [|apply IH].
  destruct (token_length toks (String c s)) eqn:Ht; [exact Ht | apply IH].
Qed.

Lemma lstrip_from_fixed (toks : list string) (s : string) :
  token_length toks s = 0%nat -> lstrip_from toks 0 s = s.
Proof. destruct s; simpl; [reflexivity|]. now intros ->. Qed.

Lemma findall_from_candidates (fuel : nat) :
  forall (s m : string),
    In m (findall_from fuel s) ->
    contains "```" m = false /\ lstrip m = m.
Proof.
  induction fuel as [|fuel IH]; intros s m; simpl; [contradiction|].
  destruct s as [|c s]; [contradiction|].
  destruct (opening_length (String c s)) as [|n]; [apply IH|].
  destruct (split_first _ _) as [[inner after]|] eqn:Hsplit; [|apply IH].
  intros [<-|Hin]; [|now apply (IH after)].
  apply split_first_spec in Hsplit as [Hs Hc]. split.
  - now apply Hc.
  - apply lstrip_from_fixed.
    apply (token_length_prefix _ _ ("```" +:+ after)). rewrite <- Hs.
    apply lstrip_from_no_token.
Qed.

(** No candidate of a text contains a fence, and none starts with white
    space. *)
Lemma findall_candidates (s m : string) :
  In m (findall s) -> contains "```" m = false /\ lstrip m = m.
Proof. apply findall_from_candidates. Qed.

End FindallMore.

(* ------------------------------------------------------------------ *)
(** ** The further statements at concrete inputs *)
(* ------------------------------------------------------------------ *)

Lemma yearly_trend_unknown_metric_witness :
  map (fun r => (Tools.trend_year r, Tools.trend_value r))
    (Tools.query_yearly_trend Script.papers "downloads") =
  map (fun r => (Tools.trend_year r, Tools.trend_value r))
    (Tools.query_yearly_trend Script.papers "papers") /\
  Forall (fun r => Tools.trend_metric r = "downloads")
    (Tools.query_yearly_trend Script.papers "downloads").
Proof.
  apply (yearly_trend_unknown_metric Script.papers "downloads"); discriminate.
Defined.

Lemma yearly_trend_papers_by_year_witness :
  map (fun r => (Tools.trend_year r, Tools.trend_value r))
    (Tools.query_yearly_trend Script.papers "citations") =
  map (fun r => (Tools.yr_year r, Tools.yr_total_citations r))
    (Tools.query_papers_by_year Script.papers 2000 2024).
Proof.
  refine (proj1 (proj2 (yearly_trend_papers_by_year Script.papers 2024 _))).
  intros p [<-|[<-|[<-|[]]]]; simpl; lia.
Defined.

Lemma generated_spec_accepted_witness :
  exists spec,
    generate_vega_lite_spec Script.title
      [JObj [("year", JInt 2020); ("value", JInt 3); ("metric", JStr "papers")]]
      "line" "year" "value" "Yearly Trend" = Returned spec /\
    SciSciNetAgent.accepts spec = Returned true.
Proof.
  eexists. split; [reflexivity|].
  refine (proj1 (generated_spec_accepted Script.title
            [JObj [("year", JInt 2020); ("value", JInt 3);
                   ("metric", JStr "papers")]]
            "line" "year" "value" "Yearly Trend" _ _)).
  reflexivity.
Defined.

Lemma get_agent_cached_witness :
  App.get_agent (fun _ => None) (Some Script.the_agent) =
    (Returned Script.the_agent, Some Script.the_agent).
Proof.
  apply (get_agent_cached (fun _ => Some "sk-test") None
           (Some Script.the_agent) Script.the_agent).
  reflexivity.
Defined.

Lemma get_agent_failure_witness :
  Exn "ValueError" "ANTHROPIC_API_KEY not set" =
    Exn "ValueError" "ANTHROPIC_API_KEY not set" /\
  @None agent = None /\ @None agent = None /\
  truthy (@None string) = false.
Proof.
  apply (get_agent_failure (fun _ => None) None None
           (Exn "ValueError" "ANTHROPIC_API_KEY not set")).
  reflexivity.
Defined.

Lemma chat_requires_message_witness :
  App.chat Script.tools Script.service Json.loads Script.dumps
    Script.derives_from_ValueError Script.float_truthy Script.reject
    3 (fun _ => None) (Returned (JObj [("message", JStr EmptyString)])) None =
  Some ({| App.body := App.ErrorPayload "Message is required";
           App.status := 400 |}, None).
Proof.
  apply (chat_requires_message Script.tools Script.service Json.loads
           Script.dumps Script.derives_from_ValueError Script.float_truthy
           Script.reject 3 (fun _ => None)
           [("message", JStr EmptyString)] None).
  reflexivity.
Defined.

Lemma chat_without_key_witness :
  App.chat Script.tools Script.service Json.loads Script.dumps
    Script.derives_from_ValueError Script.float_truthy Script.reject
    3 (fun _ => None) (Returned (JObj [("message", JStr "hello")])) None =
  Some ({| App.body := App.ErrorPayload "ANTHROPIC_API_KEY not set";
           App.status := 500 |}, None).
Proof.
  apply (chat_without_key Script.tools Script.service Json.loads
           Script.dumps Script.derives_from_ValueError Script.float_truthy
           Script.reject 3 (fun _ => None)
           [("message", JStr "hello")] (JStr "hello")); reflexivity.
Defined.

Lemma chat_response_kinds_witness :
  ((exists result,
      {| App.body := App.ErrorPayload "ANTHROPIC_API_KEY not set";
         App.status := 500 |} =
      {| App.body := App.ChatPayload result; App.status := 200 |}) \/
   {| App.body := App.ErrorPayload "ANTHROPIC_API_KEY not set";
      App.status := 500 |} =
   {| App.body := App.ErrorPayload "Message is required";
      App.status := 400 |} \/
   (exists error,
      {| App.body := App.ErrorPayload "ANTHROPIC_API_KEY not set";
         App.status := 500 |} =
      {| App.body := App.ErrorPayload error; App.status := 500 |})) /\
  (forall a : agent, @None agent = Some a -> @None agent = Some a).
Proof.
  apply (chat_response_kinds Script.tools Script.service Json.loads
           Script.dumps Script.derives_from_ValueError Script.float_truthy
           Script.reject 3 (fun _ => None)
           (Returned (JObj [("message", JStr "hello")])) None None).
  reflexivity.
Defined.

Lemma init_key_precedence_witness :
  Some (api_key Script.the_agent) = Some "sk-test" /\
  model Script.the_agent = "claude-sonnet-4-20250514".
Proof.
  apply (init_key_precedence (fun _ => Some "key-of-the-environment")
           (Some "sk-test") Script.the_agent).
  reflexivity.
Defined.


Lemma extract_sound_witness :
  exists m,
    In m (findall Script.malformed_then_valid) /\
    Json.loads (PyStr.strip m) =
      Returned (JObj [ ("data", JObj [("values", JArr [])]);
                       ("mark", JStr "bar") ]) /\
    SciSciNetAgent.accepts
      (JObj [ ("data", JObj [("values", JArr [])]); ("mark", JStr "bar") ]) =
      Returned true.
Proof.
  apply (extract_sound Json.loads Script.malformed_then_valid
           (Some (JObj [ ("data", JObj [("values", JArr [])]);
                         ("mark", JStr "bar") ]))).
  vm_compute. reflexivity.
Defined.

Lemma query_length_le_limit_witness :
  (Z.of_nat (length (Tools.query_papers_with_filters (fun l => l)
                       Script.papers None None None 2)) <=? 2)%Z = true.
Proof.
  apply Z.leb_le.
  apply (query_length_le_limit (fun l => l) Script.papers None None None 2).
  lia.
Defined.

Lemma findall_candidates_witness :
  PyStr.contains "```" (Script.lines ["5"; EmptyString]) = false /\
  PyStr.lstrip (Script.lines ["5"; EmptyString]) =
    Script.lines ["5"; EmptyString].
Proof.
  apply (findall_candidates Script.number_then_valid
           (Script.lines ["5"; EmptyString])).
  vm_compute. left. reflexivity.
Defined.
